(** * inventory_system.py: the stock ledger, embedded and verified

    The module keeps one global dictionary [stock_data] from item names
    to quantities and offers [add_item], [remove_item], [get_qty],
    [load_data], [save_data] and [check_low_items].  Each function is
    embedded as a computation over an explicit [world] (the dictionary,
    the files, the logger output and the clock) that either returns a
    value or raises a Python exception. *)

From Stdlib Require Import ZArith List String Ascii Bool Lia.
From Stdlib Require Import Floats.SpecFloat.
Import ListNotations.
Open Scope string_scope.
Open Scope Z_scope.
Open Scope list_scope.

(** ** Python values *)

(** A Python [float] is an IEEE 754 binary64 number. *)
Definition prec : Z := 53.
Definition emax : Z := 1024.
Definition float := spec_float.

Definition fzero : float := S754_zero false.
Definition fadd : float -> float -> float := SFadd prec emax.
Definition fsub : float -> float -> float := SFsub prec emax.

(** The objects the functions can be handed: the arguments of a call and
    the values [json.load] builds. *)
#[local] Unset Elimination Schemes.
Inductive pyval :=
| PNone
| PBool (b : bool)
| PInt (z : Z)
| PFloat (f : float)
| PStr (s : string)
| PList (l : list pyval)
| PDict (items : list (pyval * pyval)).
#[local] Set Elimination Schemes.

(** [isinstance(v, (int, float))]: [bool] is a subclass of [int]. *)
Inductive num :=
| NInt (z : Z)
| NFloat (f : float).

Definition as_num (v : pyval) : option num :=
  match v with
  | PBool b => Some (NInt (if b then 1 else 0))
  | PInt z => Some (NInt z)
  | PFloat f => Some (NFloat f)
  | _ => None
  end.

(** Python compares a float with an int by their exact values, with no
    conversion of the int. *)
Definition float_cmp_int (f : float) (z : Z) : option comparison :=
  match f with
  | S754_nan => None
  | S754_infinity s => Some (if s then Lt else Gt)
  | S754_zero _ => Some (0 ?= z)
  | S754_finite s m e =>
      let v := cond_Zopp s (Zpos m) in
      Some match e with
           | Zneg p => v ?= z * 2 ^ Zpos p
           | _ => v * 2 ^ e ?= z
           end
  end.

Definition num_compare (a b : num) : option comparison :=
  match a, b with
  | NInt x, NInt y => Some (x ?= y)
  | NFloat x, NFloat y => SFcompare x y
  | NFloat x, NInt y => float_cmp_int x y
  | NInt x, NFloat y => option_map CompOpp (float_cmp_int y x)
  end.

(** [a < b], [a <= b] and [a == b]; each is [False] when a NaN is
    involved. *)
Definition num_ltb (a b : num) : bool :=
  match num_compare a b with Some Lt => true | _ => false end.

Definition num_leb (a b : num) : bool :=
  match num_compare a b with Some (Lt | Eq) => true | _ => false end.

Definition num_eqb (a b : num) : bool :=
  match num_compare a b with Some Eq => true | _ => false end.

(** ** Exceptions and messages *)

(** A message before formatting: literal text and the values
    interpolated in it. *)
Inductive frag :=
| Lit (s : string)
| Fmt (v : pyval)
| Stamp (t : nat)
| Count (n : nat).

Definition msg := list frag.

(** [json.JSONDecodeError] is kept apart from the [ValueError]s the
    module raises itself. *)
Inductive exn :=
| ValueError (m : msg)
| KeyError (m : msg)
| TypeError
| OverflowError
| OSError
| JSONDecodeError.

Inductive result (A : Type) :=
| Ok (a : A)
| Raise (e : exn).
Arguments Ok {A} a.
Arguments Raise {A} e.

(** [float(x)] on a number.  An int is rounded to the nearest double,
    ties to even; one beyond the range of a double raises
    [OverflowError]. *)
Definition float_of_int (z : Z) : result float :=
  match binary_normalize prec emax z 0 false with
  | S754_infinity _ => Raise OverflowError
  | f => Ok f
  end.

Definition py_float (n : num) : result float :=
  match n with
  | NFloat f => Ok f
  | NInt z => float_of_int z
  end.

(** ** Strings *)

(** A [str] is a [string] of code points below 256.  These are the ones
    [str.strip] removes: tab to carriage return, the four separators
    0x1c to 0x1f, the space, NEL and the no-break space. *)
Definition is_space (c : ascii) : bool :=
  let n := N_of_ascii c in
  ((9 <=? n) && (n <=? 13) || (28 <=? n) && (n <=? 32)
   || (n =? 133) || (n =? 160))%N.

Fixpoint lstrip (s : string) : string :=
  match s with
  | String c s' => if is_space c then lstrip s' else s
  | EmptyString => EmptyString
  end.

Fixpoint rstrip (s : string) : string :=
  match s with
  | String c s' =>
      match rstrip s' with
      | EmptyString => if is_space c then EmptyString else String c EmptyString
      | r => String c r
      end
  | EmptyString => EmptyString
  end.

Definition strip (s : string) : string := rstrip (lstrip s).

(** Truth value of a [str]: only the empty string is false. *)
Definition str_truthy (s : string) : bool :=
  match s with EmptyString => false | _ => true end.

(** A string of nothing but whitespace, the empty one included. *)
Fixpoint all_space (s : string) : bool :=
  match s with
  | String c s' => is_space c && all_space s'
  | EmptyString => true
  end.

(** ** The dictionary *)

(** [stock_data : Dict[str, float]].  A Python dict iterates in insertion
    order, so it is a list of pairs with pairwise distinct keys. *)
Definition dict := list (string * float).

Definition dict_wf (d : dict) : Prop := NoDup (map fst d).

Fixpoint dict_get (d : dict) (k : string) : option float :=
  match d with
  | [] => None
  | (k', v) :: d' => if String.eqb k' k then Some v else dict_get d' k
  end.

Definition dict_mem (d : dict) (k : string) : bool :=
  match dict_get d k with Some _ => true | None => false end.

(** [d[k] = v]: an existing key keeps its place, a new one goes last. *)
Fixpoint dict_set (d : dict) (k : string) (v : float) : dict :=
  match d with
  | [] => [(k, v)]
  | (k', v') :: d' =>
      if String.eqb k' k then (k', v) :: d' else (k', v') :: dict_set d' k v
  end.

(** [del d[k]] *)
Fixpoint dict_del (d : dict) (k : string) : dict :=
  match d with
  | [] => []
  | (k', v') :: d' =>
      if String.eqb k' k then dict_del d' k else (k', v') :: dict_del d' k
  end.

Definition dict_keys (d : dict) : list string := map fst d.

(** ** Files *)

(** A file is modelled by what [json.load] makes of its text: the parsed
    document, or no document when the text is not JSON.  [json.dump]
    writes the document that parses back to the dumped value.

    Two things [json] does are not modelled.  [json.load] refuses a text
    that holds an int of more than 4300 digits, before [load_data] has
    touched the mapping; here such a text is a document like any other.
    And [json.dump] cannot encode a string that holds a lone surrogate;
    the strings here, code points below 256, always encode.  The
    theorems that would depend on either say so in their hypotheses. *)
Inductive content :=
| NotJson
| Doc (v : pyval).

Inductive fnode :=
| Absent
| Unusable
| File (readonly : bool) (c : content).

Definition filesystem := string -> fnode.

Definition fs_write (fs : filesystem) (path : string) (n : fnode) : filesystem :=
  fun p => if String.eqb p path then n else fs p.

(** ** The world and its monad *)

Record world := mkWorld {
  stock_data : dict;
  files : filesystem;
  log_out : list msg;
  clock : nat
}.

Definition M (A : Type) : Type := world -> result A * world.

Definition ret {A} (a : A) : M A := fun w => (Ok a, w).

Definition raise {A} (e : exn) : M A := fun w => (Raise e, w).

Definition bind {A B} (m : M A) (k : A -> M B) : M B :=
  fun w =>
    match m w with
    | (Ok a, w') => k a w'
    | (Raise e, w') => (Raise e, w')
    end.

Definition lift {A} (r : result A) : M A := fun w => (r, w).

Notation "x <- m ;; k" := (bind m (fun x => k))
  (at level 61, m at next level, right associativity).
Notation "m ;;; k" := (bind m (fun _ => k))
  (at level 61, right associativity).

Definition get_stock : M dict := fun w => (Ok (stock_data w), w).

Definition put_stock (d : dict) : M unit :=
  fun w => (Ok tt, mkWorld d (files w) (log_out w) (clock w)).

(** [datetime.now().isoformat()]: the reading of a clock that moves on. *)
Definition now : M nat :=
  fun w => (Ok (clock w),
            mkWorld (stock_data w) (files w) (log_out w) (S (clock w))).

(** [logger.info(...)] *)
Definition logger_info (m : msg) : M unit :=
  fun w => (Ok tt,
            mkWorld (stock_data w) (files w) (log_out w ++ [m]) (clock w)).

(** [open(file, "r")] followed by [json.load]. *)
Definition read_json (path : string) : M pyval :=
  fun w =>
    match files w path with
    | File _ (Doc v) => (Ok v, w)
    | File _ NotJson => (Raise JSONDecodeError, w)
    | _ => (Raise OSError, w)
    end.

(** [open(file, "w")] followed by [json.dump]. *)
Definition write_json (path : string) (v : pyval) : M unit :=
  fun w =>
    match files w path with
    | Absent | File false _ =>
        (Ok tt,
         mkWorld (stock_data w) (fs_write (files w) path (File false (Doc v)))
                 (log_out w) (clock w))
    | _ => (Raise OSError, w)
    end.

(** ** The functions of the module *)

Definition default_arg (d : pyval) (a : option pyval) : pyval :=
  match a with Some v => v | None => d end.

Definition to_json (d : dict) : pyval :=
  PDict (map (fun kv => (PStr (fst kv), PFloat (snd kv))) d).

(** The body of [add_item].  [logs] is the caller's list, if one was
    passed; Python appends to it in place and returns [None], here the
    list as the call leaves it is returned. *)
Definition add_item_body (item qty : pyval) (logs : option (list msg))
  : M (option (list msg)) :=
  match item with
  | PStr name =>
      if negb (str_truthy (strip name)) then
        raise (ValueError [Lit "item must be a non-empty string"])
      else
        match as_num qty with
        | None => raise (ValueError [Lit "qty must be numeric"])
        | Some n =>
            if num_ltb n (NInt 0) then
              raise (ValueError [Lit "qty must be non-negative"])
            else
              d <- get_stock ;;
              let current :=
                match dict_get d name with Some v => v | None => fzero end in
              q <- lift (py_float n) ;;
              put_stock (dict_set d name (fadd current q)) ;;;
              ts <- now ;;
              logger_info [Stamp ts; Lit ": Added "; Fmt qty; Lit " of ";
                           Fmt item] ;;;
              ret (option_map
                     (fun l => l ++ [[Stamp ts; Lit ": Added "; Fmt qty;
                                      Lit " of "; Fmt item]]) logs)
        end
  | _ => raise (ValueError [Lit "item must be a non-empty string"])
  end.

(** [add_item(item="default", qty=0, logs=None)]: an argument left out
    takes its default. *)
Definition add_item (item qty : option pyval) (logs : option (list msg))
  : M (option (list msg)) :=
  add_item_body (default_arg (PStr "default") item)
                (default_arg (PInt 0) qty) logs.

Definition remove_item (item qty : pyval) : M unit :=
  match item with
  | PStr name =>
      if negb (str_truthy (strip name)) then
        raise (ValueError [Lit "item must be a non-empty string"])
      else
        match as_num qty with
        | None => raise (ValueError [Lit "qty must be a positive number"])
        | Some n =>
            if num_leb n (NInt 0) then
              raise (ValueError [Lit "qty must be a positive number"])
            else
              d <- get_stock ;;
              match dict_get d name with
              | None =>
                  raise (KeyError [Lit "item '"; Fmt item; Lit "' not found"])
              | Some have =>
                  q <- lift (py_float n) ;;
                  let new_qty := fsub have q in
                  if num_ltb (NFloat new_qty) (NInt 0) then
                    raise (ValueError
                             [Lit "insufficient stock for '"; Fmt item;
                              Lit "': have "; Fmt (PFloat have);
                              Lit ", remove "; Fmt qty])
                  else
                    ts <- now ;;
                    if num_eqb (NFloat new_qty) (NInt 0) then
                      put_stock (dict_del d name) ;;;
                      logger_info [Stamp ts; Lit ": Removed "; Fmt qty;
                                   Lit " of "; Fmt item;
                                   Lit "; item deleted at zero"]
                    else
                      put_stock (dict_set d name new_qty) ;;;
                      logger_info [Stamp ts; Lit ": Removed "; Fmt qty;
                                   Lit " of "; Fmt item; Lit "; new qty ";
                                   Fmt (PFloat new_qty)]
              end
        end
  | _ => raise (ValueError [Lit "item must be a non-empty string"])
  end.

(** [stock_data[item]] for an arbitrary object: a list or a dict cannot
    be hashed, and nothing but a [str] equals a key. *)
Definition stock_getitem (item : pyval) : M float :=
  match item with
  | PList _ | PDict _ => raise TypeError
  | PStr name =>
      d <- get_stock ;;
      match dict_get d name with
      | Some v => ret v
      | None => raise (KeyError [Fmt item])
      end
  | _ => raise (KeyError [Fmt item])
  end.

Definition get_qty (item : pyval) : M float :=
  v <- stock_getitem item ;;
  ret v.

(** The loop of [load_data] over [data.items()]. *)
Fixpoint load_items (items : list (pyval * pyval)) : M unit :=
  match items with
  | [] => ret tt
  | (k, v) :: rest =>
      match k, as_num v with
      | PStr name, Some n =>
          x <- lift (py_float n) ;;
          d <- get_stock ;;
          put_stock (dict_set d name x) ;;;
          load_items rest
      | _, _ =>
          raise (ValueError
                   [Lit "inventory must map strings to numeric quantities"])
      end
  end.

(** [file: str = "inventory.json"] *)
Definition path_of (file : option string) : string :=
  match file with Some f => f | None => "inventory.json" end.

Definition load_data_body (file : string) : M unit :=
  data <- read_json file ;;
  match data with
  | PDict items =>
      put_stock [] ;;;
      load_items items ;;;
      d <- get_stock ;;
      logger_info [Lit "Loaded "; Count (List.length d); Lit " items from ";
                   Fmt (PStr file)]
  | _ => raise (ValueError [Lit "inventory file must contain a JSON object"])
  end.

Definition load_data (file : option string) : M unit :=
  load_data_body (path_of file).

Definition save_data_body (file : string) : M unit :=
  d <- get_stock ;;
  write_json file (to_json d) ;;;
  d' <- get_stock ;;
  logger_info [Lit "Saved "; Count (List.length d'); Lit " items to ";
               Fmt (PStr file)].

Definition save_data (file : option string) : M unit :=
  save_data_body (path_of file).

(** The list comprehension of [check_low_items]. *)
Fixpoint low_names (items : dict) (threshold : num) : list string :=
  match items with
  | [] => []
  | (name, qty) :: rest =>
      if num_ltb (NFloat qty) threshold
      then name :: low_names rest threshold
      else low_names rest threshold
  end.

Definition check_low_items_body (threshold : pyval) : M (list string) :=
  match as_num threshold with
  | None => raise (ValueError [Lit "threshold must be a non-negative number"])
  | Some t =>
      if num_ltb t (NInt 0) then
        raise (ValueError [Lit "threshold must be a non-negative number"])
      else
        d <- get_stock ;;
        ret (low_names d t)
  end.

Definition check_low_items (threshold : option pyval) : M (list string) :=
  check_low_items_body (default_arg (PInt 5) threshold).

(** ** The ledger as a transition system *)

Inductive op :=
| OpAdd (item qty : option pyval) (logs : option (list msg))
| OpRemove (item qty : pyval)
| OpLoad (file : option string).

(** The world an operation leaves behind, whether it returned or
    raised. *)
Definition exec (o : op) (w : world) : world :=
  match o with
  | OpAdd item qty logs => snd (add_item item qty logs w)
  | OpRemove item qty => snd (remove_item item qty w)
  | OpLoad file => snd (load_data file w)
  end.

(** The states a ledger that starts empty can be in, when each operation
    is subject to [allowed]. *)
Inductive reachable_by (allowed : world -> op -> Prop) : world -> Prop :=
| reach_init fs lg ck : reachable_by allowed (mkWorld [] fs lg ck)
| reach_step w o :
    reachable_by allowed w -> allowed w o -> reachable_by allowed (exec o w).

Definition any_op : world -> op -> Prop := fun _ _ => True.

Definition reachable : world -> Prop := reachable_by any_op.

(** ** Vocabulary of the specification *)

(** A blank name: empty, or nothing but whitespace. *)
Definition blank (s : string) : Prop := all_space s = true.

(** A number below zero.  Neither zero of the doubles is, nor is NaN. *)
Definition negative (n : num) : Prop :=
  match n with
  | NInt z => z < 0
  | NFloat (S754_finite true _ _) | NFloat (S754_infinity true) => True
  | NFloat _ => False
  end.

Definition is_zero (n : num) : Prop :=
  match n with
  | NInt z => z = 0
  | NFloat (S754_zero _) => True
  | NFloat _ => False
  end.

Definition bad_item (item : pyval) : Prop :=
  match item with
  | PStr name => blank name
  | _ => True
  end.

Definition bad_number (P : num -> Prop) (qty : pyval) : Prop :=
  match as_num qty with
  | Some n => P n
  | None => True
  end.

(** The arguments [add] rejects: a bad name, or a quantity that is not a
    number or is below zero. *)
Definition add_invalid (item qty : pyval) : Prop :=
  bad_item item \/ bad_number negative qty.

(** The arguments [remove] rejects: a bad name, or a quantity that is not
    a number or is zero or below. *)
Definition remove_invalid (item qty : pyval) : Prop :=
  bad_item item \/ bad_number (fun n => negative n \/ is_zero n) qty.

Definition is_ValueError {A} (r : result A) : Prop :=
  match r with Raise (ValueError _) => True | _ => False end.

Definition is_KeyError {A} (r : result A) : Prop :=
  match r with Raise (KeyError _) => True | _ => False end.

Definition raised {A} (r : result A) : Prop :=
  match r with Raise _ => True | Ok _ => False end.

(** The quantity on hand, 0 for an item that is not stocked. *)
Definition quantity (d : dict) (name : string) : float :=
  match dict_get d name with Some v => v | None => fzero end.

(** Every stored quantity fails the test [qty < 0]. *)
Definition no_negative (d : dict) : Prop :=
  Forall (fun kv => num_ltb (NFloat (snd kv)) (NInt 0) = false) d.

(** Every stored quantity passes the test [0 < qty]. *)
Definition all_positive (d : dict) : Prop :=
  Forall (fun kv => num_ltb (NInt 0) (NFloat (snd kv)) = true) d.

(** A file whose document, if it is a JSON object, holds no number below
    zero. *)
Definition file_no_negative (fs : filesystem) (path : string) : Prop :=
  match fs path with
  | File _ (Doc (PDict items)) =>
      Forall (fun kv => match as_num (snd kv) with
                        | Some n => ~ negative n
                        | None => True
                        end) items
  | _ => True
  end.

(** Any [add] and [remove], and [load_data] from files without negative
    numbers. *)
Definition tame : world -> op -> Prop :=
  fun w o =>
    match o with
    | OpLoad file => file_no_negative (files w) (path_of file)
    | _ => True
    end.

(** The world [add_item] leaves when it goes through. *)
Definition added (w : world) (item qty : pyval) (name : string) (q : float)
  : world :=
  mkWorld (dict_set (stock_data w) name (fadd (quantity (stock_data w) name) q))
          (files w)
          (log_out w ++ [[Stamp (clock w); Lit ": Added "; Fmt qty;
                          Lit " of "; Fmt item]])
          (S (clock w)).

(** The world [remove_item] leaves when it goes through. *)
Definition removed (w : world) (item qty : pyval) (name : string)
    (new_qty : float) : world :=
  if num_eqb (NFloat new_qty) (NInt 0) then
    mkWorld (dict_del (stock_data w) name) (files w)
            (log_out w ++ [[Stamp (clock w); Lit ": Removed "; Fmt qty;
                            Lit " of "; Fmt item;
                            Lit "; item deleted at zero"]])
            (S (clock w))
  else
    mkWorld (dict_set (stock_data w) name new_qty) (files w)
            (log_out w ++ [[Stamp (clock w); Lit ": Removed "; Fmt qty;
                            Lit " of "; Fmt item; Lit "; new qty ";
                            Fmt (PFloat new_qty)]])
            (S (clock w)).

(** ** Sample ledgers *)

Definition fresh : world := mkWorld [] (fun _ => Absent) [] 0.

(** 1.0 and 7.0 *)
Definition one : float := S754_finite false 4503599627370496 (-52).
Definition seven : float := S754_finite false 7881299347898368 (-50).

Definition with_file (d : dict) (v : pyval) : world :=
  mkWorld d
          (fun p => if String.eqb p "inventory.json"
                    then File false (Doc v) else Absent)
          [] 0.

(** A ledger holding 7 apples next to a file whose second entry is not a
    number: [{"a": 1, "b": "x"}]. *)
Definition apples_and_bad_file : world :=
  with_file [("apple", seven)]
            (PDict [(PStr "a", PInt 1); (PStr "b", PStr "x")]).

(** A ledger holding a pear and 7 apples, and no file. *)
Definition pear_and_apples : world :=
  mkWorld [("pear", one); ("apple", seven)] (fun _ => Absent) [] 0.

(** A ledger holding, in this order, a pear, 7 apples and a fig. *)
Definition pear_apples_fig : world :=
  mkWorld [("pear", one); ("apple", seven); ("fig", one)]
          (fun _ => Absent) [] 0.

(** An empty ledger next to the file [{"a": -1}]. *)
Definition empty_and_negative_file : world :=
  with_file [] (PDict [(PStr "a", PInt (-1))]).

(** ** Printing: [print_data] and [main] *)

(** What has been printed, line by line.  The functions that print run
    over the world and the console together. *)
Definition console := list msg.

Definition IO (A : Type) : Type :=
  world * console -> result A * (world * console).

Definition io_ret {A} (a : A) : IO A := fun s => (Ok a, s).

Definition io_bind {A B} (m : IO A) (k : A -> IO B) : IO B :=
  fun s =>
    match m s with
    | (Ok a, s') => k a s'
    | (Raise e, s') => (Raise e, s')
    end.

(** A call of one of the functions above: the console is not touched. *)
Definition call {A} (m : M A) : IO A :=
  fun s =>
    match m (fst s) with
    | (r, w') => (r, (w', snd s))
    end.

(** [print(...)] *)
Definition print (line : msg) : IO unit :=
  fun s => (Ok tt, (fst s, snd s ++ [line])).

Notation "x <~ m ;; k" := (io_bind m (fun x => k))
  (at level 61, m at next level, right associativity).
Notation "m ;;~ k" := (io_bind m (fun _ => k))
  (at level 61, right associativity).

(** The loop of [print_data]. *)
Fixpoint print_items (items : dict) : IO unit :=
  match items with
  | [] => io_ret tt
  | (name, qty) :: rest =>
      print [Fmt (PStr name); Lit " -> "; Fmt (PFloat qty)] ;;~
      print_items rest
  end.

Definition print_data : IO unit :=
  print [Lit "Items Report"] ;;~
  d <~ call get_stock ;;
  print_items d.

(** [main].  The list [logs] is local to it and dropped at the end. *)
Definition main : IO unit :=
  logs <~ call (add_item (Some (PStr "apple")) (Some (PInt 10)) (Some [])) ;;
  call (remove_item (PStr "apple") (PInt 3)) ;;~
  d <~ call get_stock ;;
  (if dict_mem d "apple" then
     q <~ call (get_qty (PStr "apple")) ;;
     print [Lit "Apple stock: "; Fmt (PFloat q)]
   else io_ret tt) ;;~
  low <~ call (check_low_items None) ;;
  print [Lit "Low items: "; Fmt (PList (map PStr low))] ;;~
  call (save_data None) ;;~
  call (load_data None) ;;~
  print_data.

(** ** More vocabulary *)

(** How an operation of the ledger ends. *)
Definition outcome (o : op) (w : world) : result unit :=
  match o with
  | OpAdd item qty logs =>
      match fst (add_item item qty logs w) with
      | Ok _ => Ok tt
      | Raise e => Raise e
      end
  | OpRemove item qty => fst (remove_item item qty w)
  | OpLoad file => fst (load_data file w)
  end.

(** The entries of a JSON object that [load_data] accepts, next to the
    entries it makes of them: string keys, and numbers that have a
    float. *)
Definition loads_as (items : list (pyval * pyval)) (d : dict) : Prop :=
  Forall2 (fun kv e =>
             fst kv = PStr (fst e) /\
             exists n, as_num (snd kv) = Some n /\ py_float n = Ok (snd e))
          items d.

(** An entry [load_data] rejects: the key is not a string or the value
    is not a number. *)
Definition bad_entry (k v : pyval) : Prop :=
  match k, as_num v with
  | PStr _, Some _ => False
  | _, _ => True
  end.

(** A file that [open(file, "w")] can write. *)
Definition writable (n : fnode) : Prop :=
  match n with
  | Absent | File false _ => True
  | _ => False
  end.

(** ** Large quantities and plain documents *)

(** 4.0, 2.0**53 and 1e16 *)
Definition four : float := S754_finite false 4503599627370496 (-50).
Definition two53 : float := S754_finite false 4503599627370496 1.
Definition ten16 : float := S754_finite false 5000000000000000 1.

(** Ledgers holding nothing but apples, and no file. *)
Definition apples (qty : float) : world :=
  mkWorld [("apple", qty)] (fun _ => Absent) [] 0.

(** A value [json.load] reads without nesting: [null], a boolean, a
    string, a float, or an int of at most 4300 digits (a longer one is
    refused by [json.load] itself). *)
Definition json_scalar (v : pyval) : Prop :=
  match v with
  | PInt z => Z.abs z < 10 ^ 4300
  | PList _ | PDict _ => False
  | _ => True
  end.

(** The entries of a JSON object as [json.load] returns it when all its
    values are scalars: the keys are strings, each key occurs once. *)
Definition plain_object (items : list (pyval * pyval)) : Prop :=
  NoDup (map fst items) /\
  Forall (fun kv => (exists s, fst kv = PStr s) /\ json_scalar (snd kv))
         items.

(** * Proofs *)

(** ** Strings: [strip] leaves nothing exactly of a blank string *)

Lemma lstrip_empty (s : string) :
  all_space s = true -> lstrip s = EmptyString.
Proof.
  induction s as [|c s IH]; simpl; [reflexivity|].
  intros H. apply andb_true_iff in H as [Hc Hs].
  rewrite Hc. auto.
Qed.

Lemma lstrip_head (s : string) :
  all_space s = false ->
  exists c r, lstrip s = String c r /\ is_space c = false.
Proof.
  induction s as [|c s IH]; simpl; [discriminate|].
  destruct (is_space c) eqn:Hc; simpl; intros H.
  - auto.
  - exists c, s. auto.
Qed.

Lemma rstrip_nonempty (c : ascii) (r : string) :
  is_space c = false -> rstrip (String c r) <> EmptyString.
Proof.
  intros Hc. simpl. destruct (rstrip r); [rewrite Hc|]; discriminate.
Qed.

Lemma strip_truthy (s : string) :
  str_truthy (strip s) = negb (all_space s).
Proof.
  unfold strip. destruct (all_space s) eqn:Hs.
  - rewrite lstrip_empty by assumption. reflexivity.
  - destruct (lstrip_head s Hs) as (c & r & -> & Hc).
    pose proof (rstrip_nonempty c r Hc) as Hne.
    destruct (rstrip (String c r)); [congruence | reflexivity].
Qed.

Lemma blank_dec (s : string) : {blank s} + {~ blank s}.
Proof.
  unfold blank. destruct (all_space s); [left | right]; congruence.
Qed.

(** ** Numbers: the comparisons with 0 read off the sign *)

Lemma float_cmp_int_zero (s : bool) (m : positive) (e : Z) :
  float_cmp_int (S754_finite s m e) 0 = Some (if s then Lt else Gt).
Proof.
  unfold float_cmp_int. f_equal.
  assert (Hsign : (cond_Zopp s (Zpos m) ?= 0) = if s then Lt else Gt)
    by (destruct s; reflexivity).
  destruct e as [|p|p].
  - rewrite Z.pow_0_r, Z.mul_1_r. exact Hsign.
  - assert (Hp : 0 < 2 ^ Zpos p) by (apply Z.pow_pos_nonneg; lia).
    destruct s; simpl cond_Zopp.
    + apply Z.compare_lt_iff. nia.
    + apply Z.compare_gt_iff. nia.
  - rewrite Z.mul_0_l. exact Hsign.
Qed.

Lemma num_compare_zero (n : num) :
  num_compare n (NInt 0) =
  match n with
  | NInt z => Some (z ?= 0)
  | NFloat S754_nan => None
  | NFloat (S754_zero _) => Some Eq
  | NFloat (S754_infinity s) | NFloat (S754_finite s _ _) =>
      Some (if s then Lt else Gt)
  end.
Proof.
  destruct n as [z|[s|s| |s m e]]; try reflexivity.
  apply float_cmp_int_zero.
Qed.

Lemma num_ltb_zero (n : num) : num_ltb n (NInt 0) = true <-> negative n.
Proof.
  unfold num_ltb. rewrite num_compare_zero.
  destruct n as [z|[s|[]| |[] m e]]; simpl; try (split; [discriminate | tauto]);
    try tauto.
  destruct (Z.compare_spec z 0); split; intros; try lia; try discriminate;
    reflexivity.
Qed.

Lemma num_eqb_zero (n : num) : num_eqb n (NInt 0) = true <-> is_zero n.
Proof.
  unfold num_eqb. rewrite num_compare_zero.
  destruct n as [z|[s|[]| |[] m e]]; simpl; try (split; [discriminate | tauto]);
    try tauto.
  destruct (Z.compare_spec z 0); split; intros; try lia; try discriminate;
    reflexivity.
Qed.

Lemma num_leb_zero (n : num) :
  num_leb n (NInt 0) = true <-> negative n \/ is_zero n.
Proof.
  unfold num_leb. rewrite num_compare_zero.
  destruct n as [z|[s|[]| |[] m e]]; simpl;
    try (split; [discriminate | tauto]); try tauto.
  destruct (Z.compare_spec z 0); split; intros; try lia; try discriminate;
    reflexivity.
Qed.

Lemma num_ltb_zero_false (n : num) :
  num_ltb n (NInt 0) = false <-> ~ negative n.
Proof.
  rewrite <- num_ltb_zero. destruct (num_ltb n (NInt 0)); split; congruence.
Qed.

Lemma negative_dec (n : num) : {negative n} + {~ negative n}.
Proof.
  destruct (num_ltb n (NInt 0)) eqn:H.
  - left. now apply num_ltb_zero.
  - right. now apply num_ltb_zero_false.
Qed.

(** Rounding keeps the sign it is given. *)
Lemma binary_round_aux_sign (s : bool) (m e : Z) (l : location) :
  match binary_round_aux prec emax s m e l with
  | S754_zero s' | S754_infinity s' | S754_finite s' _ _ => s' = s
  | S754_nan => True
  end.
Proof.
  unfold binary_round_aux.
  destruct (shr_fexp prec emax m e l) as [mrs' e'].
  destruct (shr_fexp prec emax _ e' loc_Exact) as [mrs'' e''].
  destruct (shr_m mrs''); trivial.
  destruct (e'' <=? emax - prec); reflexivity.
Qed.

Lemma binary_round_sign (s : bool) (m : positive) (e : Z) :
  match binary_round prec emax s m e with
  | S754_zero s' | S754_infinity s' | S754_finite s' _ _ => s' = s
  | S754_nan => True
  end.
Proof.
  unfold binary_round.
  destruct (shl_align m e _) as [mz ez]. apply binary_round_aux_sign.
Qed.

Lemma binary_normalize_nonneg (m e : Z) :
  0 <= m -> ~ negative (NFloat (binary_normalize prec emax m e false)).
Proof.
  intros Hm. destruct m as [|p|p]; simpl; [tauto | | lia].
  pose proof (binary_round_sign false p e) as H.
  destruct (binary_round prec emax false p e) as [s|s| |s m' e'];
    simpl; try subst s; tauto.
Qed.

Lemma fadd_no_negative (a b : float) :
  ~ negative (NFloat a) -> ~ negative (NFloat b) ->
  ~ negative (NFloat (fadd a b)).
Proof.
  destruct a as [[]|[]| |[] ma ea], b as [[]|[]| |[] mb eb];
    try (simpl; tauto).
  intros _ _. unfold fadd, SFadd. apply binary_normalize_nonneg.
  simpl cond_Zopp. lia.
Qed.

Lemma py_float_no_negative (n : num) (q : float) :
  ~ negative n -> py_float n = Ok q -> ~ negative (NFloat q).
Proof.
  destruct n as [z|f]; simpl.
  - unfold float_of_int. intros Hz Hq.
    pose proof (binary_normalize_nonneg z 0) as H.
    destruct (binary_normalize prec emax z 0 false); try discriminate;
      injection Hq as <-; apply H; lia.
  - intros H [= <-]. exact H.
Qed.

(** ** The dictionary operations *)

Lemma dict_get_set_same (d : dict) (k : string) (v : float) :
  dict_get (dict_set d k v) k = Some v.
Proof.
  induction d as [|[k' v'] d IH]; simpl.
  - now rewrite String.eqb_refl.
  - destruct (String.eqb k' k) eqn:E; simpl; rewrite E; auto.
Qed.

Lemma dict_get_set_other (d : dict) (k k' : string) (v : float) :
  k <> k' -> dict_get (dict_set d k v) k' = dict_get d k'.
Proof.
  intros Hne. induction d as [|[k0 v0] d IH]; simpl.
  - destruct (String.eqb_spec k k'); congruence.
  - destruct (String.eqb_spec k0 k) as [->|]; simpl.
    + destruct (String.eqb_spec k k'); congruence.
    + now rewrite IH.
Qed.

Lemma dict_get_del_same (d : dict) (k : string) :
  dict_get (dict_del d k) k = None.
Proof.
  induction d as [|[k' v'] d IH]; simpl; [reflexivity|].
  destruct (String.eqb k' k) eqn:E; simpl; [|rewrite E]; auto.
Qed.

Lemma dict_get_None (d : dict) (k : string) :
  dict_get d k = None <-> ~ In k (dict_keys d).
Proof.
  induction d as [|[k' v'] d IH]; simpl; [tauto|].
  destruct (String.eqb_spec k' k) as [->|Hne].
  - split; [discriminate | tauto].
  - rewrite IH. tauto.
Qed.

Lemma dict_get_In (d : dict) (k : string) (v : float) :
  dict_get d k = Some v -> In (k, v) d.
Proof.
  induction d as [|[k' v'] d IH]; simpl; [discriminate|].
  destruct (String.eqb_spec k' k) as [->|Hne].
  - intros [= ->]. now left.
  - auto.
Qed.

Lemma dict_In_get (d : dict) (k : string) (v : float) :
  dict_wf d -> In (k, v) d -> dict_get d k = Some v.
Proof.
  unfold dict_wf.
  induction d as [|[k' v'] d IH]; simpl; [tauto|].
  intros Hwf [[= -> ->]|Hin].
  - now rewrite String.eqb_refl.
  - inversion Hwf as [|? ? Hnotin Hwf']; subst.
    destruct (String.eqb_spec k' k) as [->|Hne]; auto.
    exfalso. apply Hnotin. now apply (in_map fst) in Hin.
Qed.

Lemma dict_set_absent (d : dict) (k : string) (v : float) :
  dict_get d k = None -> dict_set d k v = d ++ [(k, v)].
Proof.
  induction d as [|[k' v'] d IH]; simpl; [reflexivity|].
  destruct (String.eqb k' k); [discriminate|].
  intros H. now rewrite IH.
Qed.

Lemma dict_keys_set (d : dict) (k : string) (v : float) :
  dict_keys (dict_set d k v) =
  if dict_mem d k then dict_keys d else dict_keys d ++ [k].
Proof.
  unfold dict_mem.
  induction d as [|[k' v'] d IH]; simpl; [reflexivity|].
  destruct (String.eqb k' k); simpl; [reflexivity|].
  rewrite IH. now destruct (dict_get d k).
Qed.

Lemma dict_keys_del (d : dict) (k : string) :
  forall k', In k' (dict_keys (dict_del d k)) -> In k' (dict_keys d).
Proof.
  induction d as [|[k0 v0] d IH]; simpl; [tauto|].
  intros k'. destruct (String.eqb k0 k); simpl; intuition.
Qed.

Lemma dict_set_wf (d : dict) (k : string) (v : float) :
  dict_wf d -> dict_wf (dict_set d k v).
Proof.
  unfold dict_wf. fold (dict_keys d) (dict_keys (dict_set d k v)).
  rewrite dict_keys_set. unfold dict_mem.
  destruct (dict_get d k) eqn:E; [tauto|].
  intros Hwf. apply dict_get_None in E.
  apply NoDup_app; [assumption | repeat constructor; simpl; tauto |].
  intros a Ha [->|[]]. contradiction.
Qed.

Lemma dict_del_wf (d : dict) (k : string) :
  dict_wf d -> dict_wf (dict_del d k).
Proof.
  unfold dict_wf. induction d as [|[k0 v0] d IH]; simpl; [tauto|].
  intros Hwf. inversion Hwf as [|? ? Hnotin Hwf']; subst.
  destruct (String.eqb k0 k); simpl; auto.
  constructor; auto. intros Hin. apply Hnotin. eapply dict_keys_del, Hin.
Qed.

Lemma Forall_dict_set (P : string * float -> Prop) d k v :
  Forall P d -> (forall k', P (k', v)) -> Forall P (dict_set d k v).
Proof.
  intros Hd Hv. induction Hd as [|[k0 v0] d H0 Hd IH]; simpl.
  - auto.
  - destruct (String.eqb k0 k); auto.
Qed.

Lemma Forall_dict_del (P : string * float -> Prop) d k :
  Forall P d -> Forall P (dict_del d k).
Proof.
  intros Hd. induction Hd as [|[k0 v0] d H0 Hd IH]; simpl; auto.
  destruct (String.eqb k0 k); auto.
Qed.

(** ** The functions, case by case *)

Ltac run :=
  cbv beta delta [bind ret raise lift get_stock put_stock now logger_info]; cbn.

Lemma name_check (name : string) :
  negb (str_truthy (strip name)) = all_space name.
Proof. rewrite strip_truthy. apply negb_involutive. Qed.

Lemma good_args (P : num -> Prop) (item qty : pyval) :
  ~ (bad_item item \/ bad_number P qty) ->
  exists name n,
    item = PStr name /\ all_space name = false /\
    as_num qty = Some n /\ ~ P n.
Proof.
  unfold bad_item, bad_number, blank. intros H.
  destruct item as [| | | |name| |]; try tauto.
  destruct (as_num qty) as [n|]; [|tauto].
  exists name, n. destruct (all_space name); tauto.
Qed.

Lemma is_zero_dec (n : num) : {is_zero n} + {~ is_zero n}.
Proof.
  destruct n as [z|[s|s| |s m e]]; simpl; auto. apply Z.eq_dec.
Qed.

Lemma add_invalid_dec (item qty : pyval) :
  {add_invalid item qty} + {~ add_invalid item qty}.
Proof.
  unfold add_invalid, bad_item, bad_number.
  destruct item as [| | | |name| |]; auto.
  destruct (blank_dec name) as [Hb|Hb]; [auto|].
  destruct (as_num qty) as [n|]; [|auto].
  destruct (negative_dec n) as [Hn|Hn]; [auto | right; tauto].
Qed.

Lemma remove_invalid_dec (item qty : pyval) :
  {remove_invalid item qty} + {~ remove_invalid item qty}.
Proof.
  unfold remove_invalid, bad_item, bad_number.
  destruct item as [| | | |name| |]; auto.
  destruct (blank_dec name) as [Hb|Hb]; [auto|].
  destruct (as_num qty) as [n|]; [|auto].
  destruct (negative_dec n) as [Hn|Hn]; [auto|].
  destruct (is_zero_dec n) as [Hz|Hz]; [auto | right; tauto].
Qed.

Lemma add_item_rejects (item qty : pyval) logs (w : world) :
  add_invalid item qty ->
  exists m, add_item_body item qty logs w = (Raise (ValueError m), w).
Proof.
  unfold add_invalid, bad_item, bad_number, blank, add_item_body.
  intros H. destruct item as [| | | |name| |]; try (eexists; reflexivity).
  rewrite name_check.
  destruct (all_space name); [eexists; reflexivity|].
  destruct (as_num qty) as [n|]; [|eexists; reflexivity].
  destruct (num_ltb n (NInt 0)) eqn:Hn; [eexists; reflexivity|].
  apply num_ltb_zero_false in Hn. destruct H; [discriminate | contradiction].
Qed.

Lemma add_item_accepts (name : string) (qty : pyval) (n : num) logs w :
  all_space name = false -> as_num qty = Some n -> ~ negative n ->
  add_item_body (PStr name) qty logs w =
  match py_float n with
  | Ok q =>
      (Ok (option_map
             (fun l => l ++ [[Stamp (clock w); Lit ": Added "; Fmt qty;
                              Lit " of "; Fmt (PStr name)]]) logs),
       added w (PStr name) qty name q)
  | Raise e => (Raise e, w)
  end.
Proof.
  intros Hname Hqty Hn. apply num_ltb_zero_false in Hn.
  unfold add_item_body. rewrite name_check, Hname, Hqty, Hn.
  run. destruct (py_float n); reflexivity.
Qed.

Lemma add_item_ValueError (item qty : pyval) logs (w : world) :
  is_ValueError (fst (add_item_body item qty logs w)) -> add_invalid item qty.
Proof.
  intros H. destruct (add_invalid_dec item qty) as [|Hok]; [assumption|].
  exfalso. destruct (good_args _ _ _ Hok) as (name & n & -> & Hname & Hqty & Hn).
  rewrite (add_item_accepts name qty n) in H by assumption.
  destruct n as [z|f]; simpl in H; [|exact H].
  unfold float_of_int in H.
  destruct (binary_normalize prec emax z 0 false); exact H.
Qed.

Lemma remove_item_rejects (item qty : pyval) (w : world) :
  remove_invalid item qty ->
  exists m, remove_item item qty w = (Raise (ValueError m), w).
Proof.
  unfold remove_invalid, bad_item, bad_number, blank, remove_item.
  intros H. destruct item as [| | | |name| |]; try (eexists; reflexivity).
  rewrite name_check.
  destruct (all_space name); [eexists; reflexivity|].
  destruct (as_num qty) as [n|]; [|eexists; reflexivity].
  destruct (num_leb n (NInt 0)) eqn:Hn; [eexists; reflexivity|].
  destruct H as [H|H]; [discriminate|].
  apply num_leb_zero in H. congruence.
Qed.

Lemma remove_item_accepts (name : string) (qty : pyval) (n : num) w :
  all_space name = false -> as_num qty = Some n ->
  ~ (negative n \/ is_zero n) ->
  remove_item (PStr name) qty w =
  match dict_get (stock_data w) name with
  | None =>
      (Raise (KeyError [Lit "item '"; Fmt (PStr name); Lit "' not found"]), w)
  | Some have =>
      match py_float n with
      | Raise e => (Raise e, w)
      | Ok q =>
          if num_ltb (NFloat (fsub have q)) (NInt 0) then
            (Raise (ValueError
                      [Lit "insufficient stock for '"; Fmt (PStr name);
                       Lit "': have "; Fmt (PFloat have);
                       Lit ", remove "; Fmt qty]), w)
          else (Ok tt, removed w (PStr name) qty name (fsub have q))
      end
  end.
Proof.
  intros Hname Hqty Hn. rewrite <- num_leb_zero in Hn.
  apply not_true_is_false in Hn.
  unfold remove_item, removed. rewrite name_check, Hname, Hqty, Hn.
  run. destruct (dict_get (stock_data w) name) as [have|]; [|reflexivity].
  run. destruct (py_float n) as [q|e]; [|reflexivity].
  cbn. destruct (num_ltb (NFloat (fsub have q)) (NInt 0)); [reflexivity|].
  run. destruct (num_eqb (NFloat (fsub have q)) (NInt 0)); reflexivity.
Qed.

Lemma get_qty_eq (item : pyval) (w : world) :
  get_qty item w =
  (match item with
   | PStr name =>
       match dict_get (stock_data w) name with
       | Some v => Ok v
       | None => Raise (KeyError [Fmt item])
       end
   | PList _ | PDict _ => Raise TypeError
   | _ => Raise (KeyError [Fmt item])
   end, w).
Proof.
  unfold get_qty, stock_getitem.
  destruct item as [| | | |name| |]; try reflexivity.
  run. destruct (dict_get (stock_data w) name); reflexivity.
Qed.

(** The comprehension picks, in order, the entries below the threshold. *)
Lemma low_names_filter (d : dict) (t : num) :
  low_names d t =
  dict_keys (filter (fun kv => num_ltb (NFloat (snd kv)) t) d).
Proof.
  induction d as [|[name qty] d IH]; simpl; [reflexivity|].
  destruct (num_ltb (NFloat qty) t); simpl; now rewrite IH.
Qed.

Lemma low_names_In (d : dict) (t : num) (name : string) :
  In name (low_names d t) <->
  exists qty, In (name, qty) d /\ num_ltb (NFloat qty) t = true.
Proof.
  rewrite low_names_filter. unfold dict_keys. rewrite in_map_iff. split.
  - intros ([k v] & <- & H). apply filter_In in H. simpl in *. eauto.
  - intros (qty & Hin & Hlt). exists (name, qty). split; [reflexivity|].
    apply filter_In. auto.
Qed.

Lemma low_names_zero (d : dict) :
  no_negative d -> low_names d (NInt 0) = [].
Proof.
  induction 1 as [|[name qty] d H0 Hd IH]; simpl; [reflexivity|].
  simpl in H0. now rewrite H0.
Qed.

Lemma check_low_items_eq (threshold : pyval) (w : world) :
  check_low_items_body threshold w =
  (match as_num threshold with
   | None =>
       Raise (ValueError [Lit "threshold must be a non-negative number"])
   | Some t =>
       if num_ltb t (NInt 0)
       then Raise (ValueError [Lit "threshold must be a non-negative number"])
       else Ok (low_names (stock_data w) t)
   end, w).
Proof.
  unfold check_low_items_body.
  destruct (as_num threshold) as [t|]; [|reflexivity].
  destruct (num_ltb t (NInt 0)); reflexivity.
Qed.

(** The loop of [load_data] touches nothing but the dictionary. *)
Lemma load_items_frame (items : list (pyval * pyval)) (w : world) :
  let w' := snd (load_items items w) in
  files w' = files w /\ log_out w' = log_out w /\ clock w' = clock w.
Proof.
  revert w. induction items as [|[k v] items IH]; intros w; simpl; [auto|].
  destruct k as [| | | |name| |]; try (simpl; auto).
  destruct (as_num v) as [n|]; [|simpl; auto].
  run. destruct (py_float n) as [x|e]; [|simpl; auto].
  cbn. specialize (IH (mkWorld (dict_set (stock_data w) name x) (files w)
                               (log_out w) (clock w))).
  destruct (load_items items _) as [[[]|e] w']; exact IH.
Qed.

Lemma load_items_no_negative (items : list (pyval * pyval)) (w : world) :
  Forall (fun kv => match as_num (snd kv) with
                    | Some n => ~ negative n
                    | None => True
                    end) items ->
  no_negative (stock_data w) ->
  no_negative (stock_data (snd (load_items items w))).
Proof.
  intros Hitems. revert w.
  induction Hitems as [|[k v] items Hv Hitems IH]; intros w Hw; simpl;
    [assumption|].
  destruct k as [| | | |name| |]; try exact Hw.
  simpl in Hv. destruct (as_num v) as [n|]; [|exact Hw].
  run. destruct (py_float n) as [x|e] eqn:Hx; [|exact Hw].
  cbn. apply IH. simpl.
  apply Forall_dict_set; [assumption|]. intros k'. simpl.
  apply num_ltb_zero_false. eapply py_float_no_negative; eassumption.
Qed.

(** Loading back what [to_json] made of a dictionary appends its entries,
    in order, to whatever is there, provided the keys are new. *)
Lemma load_items_to_json (d : dict) :
  forall w,
    dict_wf d ->
    (forall k, In k (dict_keys d) -> ~ In k (dict_keys (stock_data w))) ->
    load_items (map (fun kv => (PStr (fst kv), PFloat (snd kv))) d) w =
    (Ok tt, mkWorld (stock_data w ++ d) (files w) (log_out w) (clock w)).
Proof.
  unfold dict_wf.
  induction d as [|[k v] d IH]; intros w Hwf Hnew; simpl.
  - rewrite app_nil_r. now destruct w.
  - run. inversion Hwf as [|? ? Hk Hwf']; subst.
    rewrite dict_set_absent by (apply dict_get_None, Hnew; now left).
    rewrite IH; simpl; [now rewrite <- app_assoc | assumption |].
    intros k' Hin. unfold dict_keys. rewrite map_app, in_app_iff. simpl.
    intros [H|[Hk'|[]]]; [|subst k'; contradiction].
    revert H. apply Hnew. now right.
Qed.

Lemma load_data_eq (path : string) (w : world) :
  load_data_body path w =
  match files w path with
  | File _ (Doc (PDict items)) =>
      match load_items items
              (mkWorld [] (files w) (log_out w) (clock w)) with
      | (Ok _, w') =>
          (Ok tt,
           mkWorld (stock_data w') (files w')
                   (log_out w' ++ [[Lit "Loaded ";
                                    Count (List.length (stock_data w'));
                                    Lit " items from "; Fmt (PStr path)]])
                   (clock w'))
      | (Raise e, w') => (Raise e, w')
      end
  | File _ (Doc _) =>
      (Raise (ValueError [Lit "inventory file must contain a JSON object"]), w)
  | File _ NotJson => (Raise JSONDecodeError, w)
  | _ => (Raise OSError, w)
  end.
Proof.
  unfold load_data_body, read_json, bind at 1.
  destruct (files w path) as [| |ro [|[| | | | | |items]]]; reflexivity.
Qed.

Lemma save_data_eq (path : string) (w : world) :
  save_data_body path w =
  match files w path with
  | Absent | File false _ =>
      (Ok tt,
       mkWorld (stock_data w)
               (fs_write (files w) path (File false (Doc (to_json (stock_data w)))))
               (log_out w ++ [[Lit "Saved ";
                               Count (List.length (stock_data w));
                               Lit " items to "; Fmt (PStr path)]])
               (clock w))
  | _ => (Raise OSError, w)
  end.
Proof.
  unfold save_data_body, write_json. run.
  destruct (files w path) as [| |[] c]; reflexivity.
Qed.

(** ** An exception from [add_item], [remove_item], [get_qty] or
    [check_low_items] leaves the world as it was *)

Lemma add_item_raise_frame item qty logs (w : world) :
  raised (fst (add_item_body item qty logs w)) ->
  snd (add_item_body item qty logs w) = w.
Proof.
  destruct (add_invalid_dec item qty) as [Hbad|Hok].
  - now destruct (add_item_rejects item qty logs w Hbad) as [m ->].
  - destruct (good_args _ _ _ Hok) as (name & n & -> & Hname & Hqty & Hn).
    rewrite (add_item_accepts name qty n) by assumption.
    destruct (py_float n); simpl; [tauto | reflexivity].
Qed.

Lemma remove_item_raise_frame item qty (w : world) :
  raised (fst (remove_item item qty w)) -> snd (remove_item item qty w) = w.
Proof.
  destruct (remove_invalid_dec item qty) as [Hbad|Hok].
  - now destruct (remove_item_rejects item qty w Hbad) as [m ->].
  - destruct (good_args _ _ _ Hok) as (name & n & -> & Hname & Hqty & Hn).
    rewrite (remove_item_accepts name qty n) by assumption.
    destruct (dict_get (stock_data w) name) as [have|]; [|reflexivity].
    destruct (py_float n) as [q|e]; [|reflexivity].
    destruct (num_ltb (NFloat (fsub have q)) (NInt 0)); simpl;
      [reflexivity | tauto].
Qed.

Lemma get_qty_frame (item : pyval) (w : world) : snd (get_qty item w) = w.
Proof. now rewrite get_qty_eq. Qed.

Lemma check_low_items_frame (threshold : option pyval) (w : world) :
  snd (check_low_items threshold w) = w.
Proof. unfold check_low_items. now rewrite check_low_items_eq. Qed.

(** [load_data] too, as long as it fails before its loop: the file cannot
    be read, is not JSON, or does not hold an object. *)
Lemma load_data_early_failure_frame (file : option string) (w : world) :
  match files w (path_of file) with
  | File _ (Doc (PDict _)) => False
  | _ => True
  end ->
  raised (fst (load_data file w)) /\ snd (load_data file w) = w.
Proof.
  unfold load_data. rewrite load_data_eq.
  destruct (files w (path_of file)) as [| |ro [|[| | | | | |items]]];
    simpl; tauto.
Qed.

(** ** The mapping stays a dictionary: its keys stay distinct *)

Lemma load_items_wf (items : list (pyval * pyval)) (w : world) :
  dict_wf (stock_data w) -> dict_wf (stock_data (snd (load_items items w))).
Proof.
  revert w. induction items as [|[k v] items IH]; intros w Hw; simpl;
    [assumption|].
  destruct k as [| | | |name| |]; try exact Hw.
  destruct (as_num v) as [n|]; [|exact Hw].
  run. destruct (py_float n) as [x|e]; [|exact Hw].
  cbn. apply IH. simpl. now apply dict_set_wf.
Qed.

Lemma exec_wf (o : op) (w : world) :
  dict_wf (stock_data w) -> dict_wf (stock_data (exec o w)).
Proof.
  intros Hw. destruct o as [item qty logs|item qty|file]; simpl.
  - unfold add_item.
    set (i := default_arg _ item). set (q := default_arg _ qty).
    destruct (add_invalid_dec i q) as [Hbad|Hok].
    + now destruct (add_item_rejects i q logs w Hbad) as [m ->].
    + destruct (good_args _ _ _ Hok) as (name & n & -> & Hname & Hqty & Hn).
      rewrite (add_item_accepts name q n) by assumption.
      destruct (py_float n); [|exact Hw]. now apply dict_set_wf.
  - destruct (remove_invalid_dec item qty) as [Hbad|Hok].
    + now destruct (remove_item_rejects item qty w Hbad) as [m ->].
    + destruct (good_args _ _ _ Hok) as (name & n & -> & Hname & Hqty & Hn).
      rewrite (remove_item_accepts name qty n) by assumption.
      destruct (dict_get (stock_data w) name) as [have|]; [|exact Hw].
      destruct (py_float n) as [q|e]; [|exact Hw].
      destruct (num_ltb (NFloat (fsub have q)) (NInt 0)); [exact Hw|].
      unfold removed.
      destruct (num_eqb (NFloat (fsub have q)) (NInt 0)); simpl.
      * now apply dict_del_wf.
      * now apply dict_set_wf.
  - unfold load_data. rewrite load_data_eq.
    destruct (files w (path_of file)) as [| |ro [|[| | | | | |items]]];
      try exact Hw.
    pose proof (load_items_wf items
                  (mkWorld [] (files w) (log_out w) (clock w))) as H.
    destruct (load_items items _) as [[[]|e] w']; simpl in *; apply H;
      constructor.
Qed.

Lemma reachable_wf (allowed : world -> op -> Prop) (w : world) :
  reachable_by allowed w -> dict_wf (stock_data w).
Proof.
  induction 1 as [fs lg ck|w o Hw IH Ho]; [constructor|].
  now apply exec_wf.
Qed.

(** ** The run of [main], step by step *)

Example floats_of_small_ints :
  py_float (NInt 1) = Ok one /\ py_float (NInt 7) = Ok seven.
Proof. split; reflexivity. Qed.

Example demo_scenario :
  let w1 := snd (add_item (Some (PStr "apple")) (Some (PInt 10)) (Some []) fresh) in
  let w2 := snd (remove_item (PStr "apple") (PInt 3) w1) in
  let w3 := snd (remove_item (PStr "apple") (PInt 7) w2) in
  fst (get_qty (PStr "apple") w2) = Ok seven /\
  fst (check_low_items None w2) = Ok [] /\
  stock_data w3 = [] /\
  fst (get_qty (PStr "apple") w3) = Raise (KeyError [Fmt (PStr "apple")]).
Proof. cbv zeta. repeat split; reflexivity. Qed.

(** ** The claims *)

(** C1 (fails in the code).  The claim: an operation that raises leaves
    the stock mapping as it was before the call, in particular
    [load_data] when an entry of the file is not a number.  Here, on the
    ledger holding 7 apples and the file [{"a": 1, "b": "x"}], [load_data]
    raises [ValueError] at the second entry, and by then the mapping has
    been cleared and the first entry stored: it is [{"a": 1.0}], not
    [{"apple": 7.0}]. *)
Theorem load_data_failure_leaves_partial_load :
  let w := apples_and_bad_file in
  let r := load_data None w in
  fst r =
    Raise (ValueError
             [Lit "inventory must map strings to numeric quantities"]) /\
  stock_data w = [("apple", seven)] /\
  stock_data (snd r) = [("a", one)] /\
  stock_data (snd r) <> stock_data w.
Proof.
  cbv zeta. repeat split; try reflexivity.
  vm_compute. discriminate.
Qed.

(** *** The invariant behind C2 and C3 *)

Lemma add_item_no_negative item qty logs (w : world) :
  no_negative (stock_data w) ->
  no_negative (stock_data (snd (add_item_body item qty logs w))).
Proof.
  intros Hw. destruct (add_invalid_dec item qty) as [Hbad|Hok].
  - now destruct (add_item_rejects item qty logs w Hbad) as [m ->].
  - destruct (good_args _ _ _ Hok) as (name & n & -> & Hname & Hqty & Hn).
    rewrite (add_item_accepts name qty n) by assumption.
    destruct (py_float n) as [q|e] eqn:Hq; [|exact Hw]. simpl.
    apply Forall_dict_set; [assumption|]. intros k'. simpl.
    apply num_ltb_zero_false, fadd_no_negative.
    + unfold quantity.
      destruct (dict_get (stock_data w) name) as [v|] eqn:Hv; [|simpl; tauto].
      apply dict_get_In in Hv. unfold no_negative in Hw.
      rewrite Forall_forall in Hw. apply num_ltb_zero_false, (Hw _ Hv).
    + eapply py_float_no_negative; eassumption.
Qed.

Lemma remove_item_no_negative item qty (w : world) :
  no_negative (stock_data w) ->
  no_negative (stock_data (snd (remove_item item qty w))).
Proof.
  intros Hw. destruct (remove_invalid_dec item qty) as [Hbad|Hok].
  - now destruct (remove_item_rejects item qty w Hbad) as [m ->].
  - destruct (good_args _ _ _ Hok) as (name & n & -> & Hname & Hqty & Hn).
    rewrite (remove_item_accepts name qty n) by assumption.
    destruct (dict_get (stock_data w) name) as [have|]; [|exact Hw].
    destruct (py_float n) as [q|e]; [|exact Hw].
    destruct (num_ltb (NFloat (fsub have q)) (NInt 0)) eqn:Hnew; [exact Hw|].
    unfold removed.
    destruct (num_eqb (NFloat (fsub have q)) (NInt 0)); simpl.
    + now apply Forall_dict_del.
    + apply Forall_dict_set; [assumption|]. intros k'. exact Hnew.
Qed.

Lemma load_data_no_negative (file : option string) (w : world) :
  file_no_negative (files w) (path_of file) ->
  no_negative (stock_data w) ->
  no_negative (stock_data (snd (load_data file w))).
Proof.
  unfold load_data, file_no_negative. rewrite load_data_eq.
  destruct (files w (path_of file)) as [| |ro [|[| | | | | |items]]];
    try (intros _ Hw; exact Hw).
  intros Hitems _.
  pose proof (load_items_no_negative items
                (mkWorld [] (files w) (log_out w) (clock w)) Hitems) as H.
  destruct (load_items items _) as [[[]|e] w']; simpl in *; apply H;
    constructor.
Qed.

Lemma tame_no_negative (w : world) :
  reachable_by tame w -> no_negative (stock_data w).
Proof.
  induction 1 as [fs lg ck|w o Hw IH Ho]; [constructor|].
  destruct o as [item qty logs|item qty|file]; simpl.
  - now apply add_item_no_negative.
  - now apply remove_item_no_negative.
  - now apply load_data_no_negative.
Qed.

(** C2 (amended).  In every state reachable from the empty ledger by
    [add_item], [remove_item] and [load_data] from files that hold no
    negative number, no stored quantity is negative: the test [qty < 0]
    fails on each.  (A quantity of zero can be stored.) *)
Theorem reachable_no_negative (w : world) (name : string) (qty : float) :
  reachable_by tame w ->
  dict_get (stock_data w) name = Some qty ->
  ~ negative (NFloat qty) /\ num_ltb (NFloat qty) (NInt 0) = false.
Proof.
  intros Hw Hget. apply tame_no_negative in Hw. apply dict_get_In in Hget.
  unfold no_negative in Hw. rewrite Forall_forall in Hw.
  specialize (Hw _ Hget). simpl in Hw. split; [|exact Hw].
  now apply num_ltb_zero_false.
Qed.

Lemma reachable_no_negative_witness :
  let w := exec (OpRemove (PStr "apple") (PInt 3))
             (exec (OpAdd (Some (PStr "apple")) (Some (PInt 10)) None) fresh) in
  reachable_by tame w /\ dict_get (stock_data w) "apple" = Some seven /\
  ~ negative (NFloat seven) /\ num_ltb (NFloat seven) (NInt 0) = false.
Proof.
  cbv zeta.
  assert (H : reachable_by tame
                (exec (OpRemove (PStr "apple") (PInt 3))
                   (exec (OpAdd (Some (PStr "apple")) (Some (PInt 10)) None)
                      fresh))).
  { apply reach_step; [apply reach_step; [apply reach_init | exact I]
                      | exact I]. }
  split; [exact H|]. split; [reflexivity|].
  apply (reachable_no_negative _ "apple" seven H). reflexivity.
Defined.

(** C2 as stated fails twice over.  [add_item("a", 0)] on the empty ledger
    stores the quantity 0.0, which is not strictly positive; and
    [load_data] on the file [{"a": -1}] stores the quantity -1.0. *)
Lemma stored_zero_and_stored_negative :
  let wz := exec (OpAdd (Some (PStr "a")) (Some (PInt 0)) None) fresh in
  let wn := exec (OpLoad None) empty_and_negative_file in
  (reachable wz /\ stock_data wz = [("a", fzero)] /\
   ~ all_positive (stock_data wz)) /\
  (reachable wn /\ stock_data wn = [("a", SFopp one)] /\
   ~ no_negative (stock_data wn)).
Proof.
  cbv zeta. split; (split; [apply reach_step; [apply reach_init | exact I]|]);
    (split; [reflexivity|]); intros H; inversion H as [|? ? Hhd]; subst;
    vm_compute in Hhd; discriminate.
Qed.

(** C3 (amended).  In every state reachable from the empty ledger by
    [add_item], [remove_item] and [load_data] from files that hold no
    negative number, [check_low_items(0)] returns the empty list and
    leaves the ledger as it is. *)
Theorem check_low_items_zero_empty (w : world) :
  reachable_by tame w ->
  check_low_items (Some (PInt 0)) w = (Ok [], w).
Proof.
  intros Hw. unfold check_low_items. rewrite check_low_items_eq. simpl.
  now rewrite low_names_zero by now apply tame_no_negative.
Qed.

Lemma check_low_items_zero_empty_witness :
  let w := exec (OpAdd (Some (PStr "pear")) (Some (PInt 0)) None)
             (exec (OpAdd (Some (PStr "apple")) (Some (PInt 10)) None) fresh) in
  reachable_by tame w /\ check_low_items (Some (PInt 0)) w = (Ok [], w).
Proof.
  cbv zeta.
  assert (H : reachable_by tame
                (exec (OpAdd (Some (PStr "pear")) (Some (PInt 0)) None)
                   (exec (OpAdd (Some (PStr "apple")) (Some (PInt 10)) None)
                      fresh))).
  { apply reach_step; [apply reach_step; [apply reach_init | exact I]
                      | exact I]. }
  split; [exact H | exact (check_low_items_zero_empty _ H)].
Defined.

(** C3 as stated fails: after [load_data] on the file [{"a": -1}], which is
    reachable from the empty ledger, [check_low_items(0)] returns
    [["a"]]. *)
Lemma check_low_items_zero_after_negative_load :
  let wn := exec (OpLoad None) empty_and_negative_file in
  reachable wn /\ fst (check_low_items (Some (PInt 0)) wn) = Ok ["a"].
Proof.
  cbv zeta. split; [apply reach_step; [apply reach_init | exact I]|].
  reflexivity.
Qed.

(** C10.  [get_qty] and [check_low_items] never modify the ledger: whatever
    the state and the argument, and whether the call returns or raises,
    the stock mapping (and the rest of the world) after the call is the
    one before it. *)
Theorem queries_leave_world (item : pyval) (threshold : option pyval)
    (w : world) :
  snd (get_qty item w) = w /\ snd (check_low_items threshold w) = w /\
  stock_data (snd (get_qty item w)) = stock_data w /\
  stock_data (snd (check_low_items threshold w)) = stock_data w.
Proof.
  rewrite get_qty_frame, check_low_items_frame. auto.
Qed.

(** C9.  [add_item()] with no argument at all succeeds: it adds 0 to the
    quantity of the item ["default"], and when that item was absent it
    enters the mapping last, with quantity 0.0. *)
Theorem add_item_no_arguments (w : world) :
  let r := add_item None None None w in
  let d := stock_data w in
  fst r = Ok None /\
  stock_data (snd r) = dict_set d "default" (fadd (quantity d "default") fzero) /\
  dict_get (stock_data (snd r)) "default"
    = Some (fadd (quantity d "default") fzero) /\
  (dict_get d "default" = None ->
   stock_data (snd r) = d ++ [("default", fzero)]).
Proof.
  cbv zeta. unfold add_item. simpl default_arg.
  rewrite (add_item_accepts "default" (PInt 0) (NInt 0)) by (simpl; auto; lia).
  simpl. repeat split.
  - apply dict_get_set_same.
  - intros Habs. unfold quantity. rewrite Habs.
    now apply dict_set_absent.
Qed.

Lemma add_item_no_arguments_witness :
  stock_data (snd (add_item None None None fresh)) = [("default", fzero)].
Proof.
  apply (proj2 (proj2 (proj2 (add_item_no_arguments fresh)))). reflexivity.
Defined.

(** C4 (amended).  [add_item(item, qty)] raises [ValueError] exactly when
    [item] is not a string or is blank, or [qty] is not a number or is
    negative.  Otherwise, when [float(qty)] exists, it succeeds and sets
    [stock_data[item]] to the previous quantity (0 if the item was
    absent) plus [float(qty)], which [get_qty(item)] then returns; when
    [qty] is an int beyond the range of a double it raises
    [OverflowError] and changes nothing.  On an empty ledger a valid
    [item] with [qty = 0] is stored with quantity 0.0 and can be
    queried. *)
Theorem add_item_spec (item qty : pyval) (logs : option (list msg))
    (w : world) :
  let r := add_item (Some item) (Some qty) logs w in
  let d := stock_data w in
  (is_ValueError (fst r) <-> add_invalid item qty) /\
  (forall name n,
      ~ add_invalid item qty -> item = PStr name -> as_num qty = Some n ->
      match py_float n with
      | Ok q =>
          (exists l, fst r = Ok l) /\
          stock_data (snd r) = dict_set d name (fadd (quantity d name) q) /\
          get_qty item (snd r) = (Ok (fadd (quantity d name) q), snd r)
      | Raise e => e = OverflowError /\ r = (Raise OverflowError, w)
      end) /\
  (forall name,
      item = PStr name -> ~ blank name -> qty = PInt 0 -> d = [] ->
      stock_data (snd r) = [(name, fzero)] /\
      get_qty item (snd r) = (Ok fzero, snd r)).
Proof.
  cbv zeta. unfold add_item. simpl default_arg. split; [|split].
  - split; [apply add_item_ValueError|].
    intros H. now destruct (add_item_rejects item qty logs w H) as [m ->].
  - intros name n Hok -> Hn.
    destruct (good_args _ _ _ Hok) as (name' & n' & [= <-] & Hname & Hn' & Hpos).
    assert (n' = n) as -> by congruence.
    rewrite (add_item_accepts name qty n) by assumption.
    destruct (py_float n) as [q|e] eqn:Hq.
    + simpl. split; [eauto|]. split; [reflexivity|].
      rewrite get_qty_eq. simpl. now rewrite dict_get_set_same.
    + assert (e = OverflowError) as ->; [|split; reflexivity].
      destruct n as [z|f]; simpl in Hq; [|discriminate].
      unfold float_of_int in Hq.
      destruct (binary_normalize prec emax z 0 false); congruence.
  - intros name -> Hname -> Hd.
    rewrite (add_item_accepts name (PInt 0) (NInt 0));
      [|unfold blank in Hname; now destruct (all_space name)
       |reflexivity | simpl; lia].
    simpl. rewrite get_qty_eq. simpl. rewrite Hd. simpl.
    now rewrite String.eqb_refl.
Qed.

Lemma add_item_spec_witness :
  let w := exec (OpAdd (Some (PStr "apple")) (Some (PInt 3)) None) fresh in
  let r := add_item (Some (PStr "apple")) (Some (PFloat one)) None w in
  ~ add_invalid (PStr "apple") (PFloat one) /\
  get_qty (PStr "apple") (snd r) =
    (Ok (fadd (quantity (stock_data w) "apple") one), snd r).
Proof.
  cbv zeta.
  assert (Hok : ~ add_invalid (PStr "apple") (PFloat one)).
  { intros [H|H]; [discriminate H | exact H]. }
  split; [exact Hok|].
  exact (proj2 (proj2
           (proj1 (proj2 (add_item_spec (PStr "apple") (PFloat one) None _))
              "apple" (NFloat one) Hok eq_refl eq_refl))).
Defined.

(** C4 as stated fails: ["a"] and [2**1024] are a valid name and a
    non-negative number, yet [add_item("a", 2**1024)] raises
    [OverflowError] and stores nothing, so that [get_qty("a")] raises
    [KeyError] afterwards. *)
Lemma add_item_huge_int_raises :
  let r := add_item (Some (PStr "a")) (Some (PInt (2 ^ 1024))) None fresh in
  ~ add_invalid (PStr "a") (PInt (2 ^ 1024)) /\
  fst r = Raise OverflowError /\
  stock_data (snd r) = [] /\
  fst (get_qty (PStr "a") (snd r)) = Raise (KeyError [Fmt (PStr "a")]).
Proof.
  cbv zeta. split; [|repeat split; vm_compute; reflexivity].
  intros [H|H]; [discriminate H | vm_compute in H; discriminate H].
Qed.

(** C5 (amended).  [remove_item(item, qty)] checks in this order, the
    first that applies deciding: [ValueError] when [item] is not a string
    or is blank, or [qty] is not a number or is zero or below, whatever
    the stock; then [KeyError] when [item] is not in the mapping; then
    [OverflowError] when [qty] is an int with no float; then
    [ValueError] when the floating-point difference of the stock and the
    float of [qty] is below zero, with a message that holds both the
    quantity on hand and the quantity asked for.  In each of these cases
    the ledger is left as it was, and in every other case the call
    returns. *)
Theorem remove_item_errors (item qty : pyval) (w : world) :
  let r := remove_item item qty w in
  (remove_invalid item qty -> is_ValueError (fst r) /\ snd r = w) /\
  (forall name,
      ~ remove_invalid item qty -> item = PStr name ->
      dict_get (stock_data w) name = None ->
      is_KeyError (fst r) /\ snd r = w) /\
  (forall name n have e,
      ~ remove_invalid item qty -> item = PStr name ->
      dict_get (stock_data w) name = Some have ->
      as_num qty = Some n -> py_float n = Raise e ->
      e = OverflowError /\ r = (Raise OverflowError, w)) /\
  (forall name n have q,
      ~ remove_invalid item qty -> item = PStr name ->
      dict_get (stock_data w) name = Some have ->
      as_num qty = Some n -> py_float n = Ok q ->
      negative (NFloat (fsub have q)) ->
      (exists m, fst r = Raise (ValueError m) /\
                 In (Fmt (PFloat have)) m /\ In (Fmt qty) m) /\
      snd r = w) /\
  (forall name n have q,
      ~ remove_invalid item qty -> item = PStr name ->
      dict_get (stock_data w) name = Some have ->
      as_num qty = Some n -> py_float n = Ok q ->
      ~ negative (NFloat (fsub have q)) ->
      fst r = Ok tt).
Proof.
  cbv zeta. split; [|split; [|split; [|split]]].
  - intros H. now destruct (remove_item_rejects item qty w H) as [m ->].
  - intros name Hok -> Habs.
    destruct (good_args _ _ _ Hok) as (name' & n & [= <-] & Hname & Hn & Hpos).
    rewrite (remove_item_accepts name qty n) by assumption.
    rewrite Habs. simpl. auto.
  - intros name n have e Hok -> Hhave Hn Hq.
    destruct (good_args _ _ _ Hok) as (name' & n' & [= <-] & Hname & Hn' & Hpos).
    assert (n' = n) as -> by congruence.
    rewrite (remove_item_accepts name qty n) by assumption.
    rewrite Hhave, Hq.
    assert (e = OverflowError) as ->; [|split; reflexivity].
    destruct n as [z|f]; simpl in Hq; [|discriminate].
    unfold float_of_int in Hq.
    destruct (binary_normalize prec emax z 0 false); congruence.
  - intros name n have q Hok -> Hhave Hn Hq Hneg.
    destruct (good_args _ _ _ Hok) as (name' & n' & [= <-] & Hname & Hn' & Hpos).
    assert (n' = n) as -> by congruence.
    rewrite (remove_item_accepts name qty n) by assumption.
    rewrite Hhave, Hq. apply num_ltb_zero in Hneg. rewrite Hneg.
    split; [|reflexivity]. eexists. split; [reflexivity|].
    simpl. auto 10.
  - intros name n have q Hok -> Hhave Hn Hq Hneg.
    destruct (good_args _ _ _ Hok) as (name' & n' & [= <-] & Hname & Hn' & Hpos).
    assert (n' = n) as -> by congruence.
    rewrite (remove_item_accepts name qty n) by assumption.
    rewrite Hhave, Hq. apply num_ltb_zero_false in Hneg. now rewrite Hneg.
Qed.

Lemma remove_item_errors_witness :
  let w := apples seven in
  (is_ValueError (fst (remove_item (PStr "pear") (PInt 0) w)) /\
   is_KeyError (fst (remove_item (PStr "pear") (PInt 1) w))) /\
  remove_item (PStr "apple") (PInt (2 ^ 1024)) w = (Raise OverflowError, w) /\
  (exists m, fst (remove_item (PStr "apple") (PInt 8) w) = Raise (ValueError m)
             /\ In (Fmt (PFloat seven)) m /\ In (Fmt (PInt 8)) m) /\
  fst (remove_item (PStr "apple") (PInt 7) w) = Ok tt.
Proof.
  cbv zeta.
  assert (Hok : forall name z,
             name = "pear" \/ name = "apple" -> 0 < z ->
             ~ remove_invalid (PStr name) (PInt z)).
  { intros name z Hname Hz [H|[H|H]]; simpl in H; try lia.
    destruct Hname as [-> | ->]; discriminate H. }
  split; [split|split; [|split]].
  - apply (proj1 (remove_item_errors (PStr "pear") (PInt 0) (apples seven))).
    right. right. reflexivity.
  - apply (proj1 (proj2 (remove_item_errors (PStr "pear") (PInt 1)
                           (apples seven))) "pear");
      [apply Hok; [auto | lia] | reflexivity | reflexivity].
  - apply (proj1 (proj2 (proj2 (remove_item_errors (PStr "apple")
                                  (PInt (2 ^ 1024)) (apples seven))))
             "apple" (NInt (2 ^ 1024)) seven OverflowError);
      [apply Hok; [auto | vm_compute; reflexivity]
      | reflexivity | reflexivity | reflexivity | vm_compute; reflexivity].
  - apply (proj1 (proj2 (proj2 (proj2 (remove_item_errors (PStr "apple")
                                         (PInt 8) (apples seven)))))
             "apple" (NInt 8) seven
             (S754_finite false 4503599627370496 (-49)));
      [apply Hok; [auto | lia]
      | reflexivity | reflexivity | reflexivity | reflexivity | exact I].
  - apply (proj2 (proj2 (proj2 (proj2 (remove_item_errors (PStr "apple")
                                         (PInt 7) (apples seven)))))
             "apple" (NInt 7) seven seven);
      [apply Hok; [auto | lia]
      | reflexivity | reflexivity | reflexivity | reflexivity
      | exact (fun H => H)].
Defined.

(** C5 as stated fails where the stock is exactly less than [qty] and
    yet no [ValueError] for insufficient stock is raised.  With 7.0
    apples, [remove_item("apple", 2**1024)] raises [OverflowError].  With
    2.0**53 apples, [remove_item("apple", 2**53 + 1)] returns and deletes
    the item: the float of [qty] is 2.0**53. *)
Lemma remove_item_exact_shortfall :
  (~ remove_invalid (PStr "apple") (PInt (2 ^ 1024)) /\
   num_ltb (NFloat seven) (NInt (2 ^ 1024)) = true /\
   remove_item (PStr "apple") (PInt (2 ^ 1024)) (apples seven)
     = (Raise OverflowError, apples seven)) /\
  (~ remove_invalid (PStr "apple") (PInt (2 ^ 53 + 1)) /\
   num_ltb (NFloat two53) (NInt (2 ^ 53 + 1)) = true /\
   fst (remove_item (PStr "apple") (PInt (2 ^ 53 + 1)) (apples two53))
     = Ok tt /\
   stock_data (snd (remove_item (PStr "apple") (PInt (2 ^ 53 + 1))
                      (apples two53))) = []).
Proof.
  split; (split; [intros [H|[H|H]];
                  [discriminate H | vm_compute in H; discriminate H
                  | vm_compute in H; discriminate H]|]);
    repeat split; vm_compute; reflexivity.
Qed.

(** C6 (amended).  When [remove_item(item, qty)] succeeds, the item was
    stocked and the new quantity is the floating-point difference of the
    stock and the float of [qty]: [qty] is first rounded to a double and
    so is the difference.  If that is exactly 0 the key is deleted:
    [get_qty(item)] raises [KeyError] afterwards and no call of
    [check_low_items] lists the item.  Otherwise the key holds the new
    quantity. *)
Theorem remove_item_effect (item qty : pyval) (w : world) :
  let r := remove_item item qty w in
  fst r = Ok tt ->
  exists name n have q,
    item = PStr name /\ as_num qty = Some n /\
    dict_get (stock_data w) name = Some have /\ py_float n = Ok q /\
    (is_zero (NFloat (fsub have q)) ->
     stock_data (snd r) = dict_del (stock_data w) name /\
     is_KeyError (fst (get_qty item (snd r))) /\
     forall threshold l,
       fst (check_low_items threshold (snd r)) = Ok l -> ~ In name l) /\
    (~ is_zero (NFloat (fsub have q)) ->
     stock_data (snd r) = dict_set (stock_data w) name (fsub have q) /\
     fst (get_qty item (snd r)) = Ok (fsub have q)).
Proof.
  cbv zeta. intros Hret.
  destruct (remove_invalid_dec item qty) as [Hbad|Hok].
  { destruct (remove_item_rejects item qty w Hbad) as [m Hm].
    rewrite Hm in Hret. discriminate. }
  destruct (good_args _ _ _ Hok) as (name & n & -> & Hname & Hn & Hpos).
  rewrite (remove_item_accepts name qty n) in * by assumption.
  destruct (dict_get (stock_data w) name) as [have|] eqn:Hhave;
    [|discriminate].
  destruct (py_float n) as [q|e] eqn:Hq; [|discriminate].
  destruct (num_ltb (NFloat (fsub have q)) (NInt 0)); [discriminate|].
  exists name, n, have, q. repeat (split; [reflexivity || assumption|]).
  unfold removed. split; intros Hz.
  - apply num_eqb_zero in Hz. rewrite Hz. simpl.
    split; [reflexivity|]. split.
    + rewrite get_qty_eq. simpl. now rewrite dict_get_del_same.
    + intros threshold l. unfold check_low_items.
      rewrite check_low_items_eq. simpl.
      destruct (as_num (default_arg _ threshold)) as [t|]; [|discriminate].
      destruct (num_ltb t (NInt 0)); [discriminate|].
      intros [= <-] Hin. apply low_names_In in Hin as (v & Hin & _).
      apply (in_map fst) in Hin. simpl in Hin.
      revert Hin. apply dict_get_None, dict_get_del_same.
  - rewrite <- num_eqb_zero in Hz. apply not_true_is_false in Hz.
    rewrite Hz. simpl. split; [reflexivity|].
    rewrite get_qty_eq. simpl. now rewrite dict_get_set_same.
Qed.

Lemma remove_item_effect_witness :
  let r7 := remove_item (PStr "apple") (PInt 7) pear_and_apples in
  let r3 := remove_item (PStr "apple") (PInt 3) pear_and_apples in
  (stock_data (snd r7) = [("pear", one)] /\
   is_KeyError (fst (get_qty (PStr "apple") (snd r7))) /\
   fst (check_low_items (Some (PInt 9)) (snd r7)) = Ok ["pear"]) /\
  (stock_data (snd r3) = [("pear", one); ("apple", four)] /\
   fst (get_qty (PStr "apple") (snd r3)) = Ok four).
Proof.
  cbv zeta. split.
  - destruct (remove_item_effect (PStr "apple") (PInt 7) pear_and_apples
                eq_refl)
      as (name & n & have & q & Hname & Hn & Hhave & Hq & Hzero & _).
    injection Hname as <-. injection Hn as <-.
    vm_compute in Hhave. injection Hhave as <-.
    vm_compute in Hq. injection Hq as <-.
    destruct (Hzero I) as (Hstock & Hget & _).
    split; [rewrite Hstock; reflexivity|]. split; [exact Hget | reflexivity].
  - destruct (remove_item_effect (PStr "apple") (PInt 3) pear_and_apples
                eq_refl)
      as (name & n & have & q & Hname & Hn & Hhave & Hq & _ & Hrest).
    injection Hname as <-. injection Hn as <-.
    vm_compute in Hhave. injection Hhave as <-.
    vm_compute in Hq. injection Hq as <-.
    destruct (Hrest (fun H => H)) as (Hstock & Hget).
    split; [rewrite Hstock; reflexivity | rewrite Hget; reflexivity].
Defined.

(** C6 as stated fails: the new quantity is not the stock less [qty].
    With 1e16 apples, [remove_item("apple", 1)] returns and the stock is
    still 1e16, which is not 10**16 - 1.  With 2.0**53 apples,
    [remove_item("apple", 2**53 + 1)] returns and deletes the key,
    though the stock is not equal to [qty]. *)
Lemma remove_item_rounds_the_difference :
  (fst (remove_item (PStr "apple") (PInt 1) (apples ten16)) = Ok tt /\
   stock_data (snd (remove_item (PStr "apple") (PInt 1) (apples ten16)))
     = [("apple", ten16)] /\
   float_cmp_int ten16 (10 ^ 16) = Some Eq /\
   float_cmp_int ten16 (10 ^ 16 - 1) = Some Gt) /\
  (fst (remove_item (PStr "apple") (PInt (2 ^ 53 + 1)) (apples two53))
     = Ok tt /\
   stock_data (snd (remove_item (PStr "apple") (PInt (2 ^ 53 + 1))
                      (apples two53))) = [] /\
   float_cmp_int two53 (2 ^ 53) = Some Eq /\
   float_cmp_int two53 (2 ^ 53 + 1) = Some Lt).
Proof. repeat split; vm_compute; reflexivity. Qed.



(** C8.  [check_low_items(threshold)] raises [ValueError] when [threshold]
    is not a number or is negative.  Otherwise it returns the keys of the
    entries whose quantity is strictly below [threshold], each of them
    and no other, in the order in which the mapping holds them, which is
    the order of insertion and need not be sorted. *)
Theorem check_low_items_spec (threshold : pyval) (w : world) :
  let r := check_low_items (Some threshold) w in
  (bad_number negative threshold -> is_ValueError (fst r)) /\
  (forall t,
      as_num threshold = Some t -> ~ negative t ->
      fst r = Ok (dict_keys
                    (filter (fun kv => num_ltb (NFloat (snd kv)) t)
                            (stock_data w))) /\
      (forall l name,
          fst r = Ok l ->
          (In name l <->
           exists qty, In (name, qty) (stock_data w) /\
                       num_ltb (NFloat qty) t = true))) /\
  (forall t l name,
      dict_wf (stock_data w) -> as_num threshold = Some t -> ~ negative t ->
      fst r = Ok l ->
      (In name l <->
       exists qty, dict_get (stock_data w) name = Some qty /\
                   num_ltb (NFloat qty) t = true)).
Proof.
  cbv zeta. unfold check_low_items. simpl default_arg.
  rewrite check_low_items_eq. simpl. unfold bad_number.
  split; [|split].
  - destruct (as_num threshold) as [t|]; [|intros _; exact I].
    intros Hneg. apply num_ltb_zero in Hneg. now rewrite Hneg.
  - intros t -> Ht. apply num_ltb_zero_false in Ht. rewrite Ht.
    split; [now rewrite low_names_filter|].
    intros l name [= <-]. apply low_names_In.
  - intros t l name Hwf -> Ht. apply num_ltb_zero_false in Ht. rewrite Ht.
    intros [= <-]. rewrite low_names_In.
    split; intros (v & Hv & Hlt); exists v; split; auto.
    + now apply dict_In_get.
    + now apply dict_get_In.
Qed.

Lemma check_low_items_spec_witness :
  let w := pear_apples_fig in
  is_ValueError (fst (check_low_items (Some (PInt (-1))) w)) /\
  fst (check_low_items (Some (PInt 5)) w) = Ok ["pear"; "fig"].
Proof.
  cbv zeta. split.
  - apply (proj1 (check_low_items_spec (PInt (-1)) pear_apples_fig)).
    unfold bad_number. simpl. lia.
  - assert (H5 : ~ negative (NInt 5)) by (simpl; lia).
    rewrite (proj1 (proj1 (proj2 (check_low_items_spec (PInt 5)
                                    pear_apples_fig))
                      (NInt 5) eq_refl H5)).
    reflexivity.
Defined.

(** ** Further properties of the functions *)

Lemma dict_get_del_other (d : dict) (k k' : string) :
  k <> k' -> dict_get (dict_del d k) k' = dict_get d k'.
Proof.
  intros Hne. induction d as [|[k0 v0] d IH]; simpl; [reflexivity|].
  destruct (String.eqb_spec k0 k) as [->|]; simpl.
  - destruct (String.eqb_spec k k'); congruence.
  - now rewrite IH.
Qed.

Lemma dict_keys_del_filter (d : dict) (k : string) :
  dict_keys (dict_del d k) =
  filter (fun k' => negb (String.eqb k' k)) (dict_keys d).
Proof.
  induction d as [|[k0 v0] d IH]; simpl; [reflexivity|].
  destruct (String.eqb k0 k); simpl; now rewrite IH.
Qed.

Lemma dict_del_absent (d : dict) (k : string) :
  dict_get d k = None -> dict_del d k = d.
Proof.
  induction d as [|[k0 v0] d IH]; simpl; [reflexivity|].
  destruct (String.eqb k0 k); [discriminate|].
  intros H. now rewrite IH.
Qed.

Lemma dict_del_app_last (d : dict) (k : string) (v : float) :
  dict_get d k = None -> dict_del (d ++ [(k, v)]) k = d.
Proof.
  induction d as [|[k0 v0] d IH]; simpl.
  - now rewrite String.eqb_refl.
  - destruct (String.eqb k0 k); [discriminate|].
    intros H. now rewrite IH.
Qed.

(** What a call of [add_item] that returns was given. *)
Lemma add_item_returns (item qty : pyval) logs (w : world) :
  ~ raised (fst (add_item_body item qty logs w)) ->
  exists name n q,
    item = PStr name /\ as_num qty = Some n /\ py_float n = Ok q /\
    ~ negative n /\
    add_item_body item qty logs w =
    (Ok (option_map
           (fun l => l ++ [[Stamp (clock w); Lit ": Added "; Fmt qty;
                            Lit " of "; Fmt item]]) logs),
     added w item qty name q).
Proof.
  intros Hret. destruct (add_invalid_dec item qty) as [Hbad|Hok].
  { destruct (add_item_rejects item qty logs w Hbad) as [m Hm].
    rewrite Hm in Hret. simpl in Hret. tauto. }
  destruct (good_args _ _ _ Hok) as (name & n & -> & Hname & Hqty & Hn).
  rewrite (add_item_accepts name qty n) in * by assumption.
  destruct (py_float n) as [q|e] eqn:Hq; [|simpl in Hret; tauto].
  exists name, n, q. auto.
Qed.

(** What a call of [remove_item] that returns was given. *)
Lemma remove_item_returns (item qty : pyval) (w : world) :
  ~ raised (fst (remove_item item qty w)) ->
  exists name n have q,
    item = PStr name /\ as_num qty = Some n /\ py_float n = Ok q /\
    dict_get (stock_data w) name = Some have /\
    num_ltb (NFloat (fsub have q)) (NInt 0) = false /\
    remove_item item qty w = (Ok tt, removed w item qty name (fsub have q)).
Proof.
  intros Hret. destruct (remove_invalid_dec item qty) as [Hbad|Hok].
  { destruct (remove_item_rejects item qty w Hbad) as [m Hm].
    rewrite Hm in Hret. simpl in Hret. tauto. }
  destruct (good_args _ _ _ Hok) as (name & n & -> & Hname & Hqty & Hn).
  rewrite (remove_item_accepts name qty n) in * by assumption.
  destruct (dict_get (stock_data w) name) as [have|] eqn:Hhave;
    [|simpl in Hret; tauto].
  destruct (py_float n) as [q|e] eqn:Hq; [|simpl in Hret; tauto].
  destruct (num_ltb (NFloat (fsub have q)) (NInt 0)) eqn:Hlt;
    [simpl in Hret; tauto|].
  exists name, n, have, q. auto 10.
Qed.

(** X1.  A call [add_item(item, qty)] that returns touches no other item:
    every other key keeps its quantity, the keys that were there keep
    their order, and [item] is appended last if it is new. *)
Theorem add_item_other_items (item qty : pyval) logs (w : world) :
  let r := add_item (Some item) (Some qty) logs w in
  let d := stock_data w in
  ~ raised (fst r) ->
  exists name,
    item = PStr name /\
    (forall k, k <> name -> dict_get (stock_data (snd r)) k = dict_get d k) /\
    dict_keys (stock_data (snd r)) =
      (if dict_mem d name then dict_keys d else dict_keys d ++ [name]).
Proof.
  cbv zeta. unfold add_item. simpl default_arg. intros Hret.
  destruct (add_item_returns _ _ _ _ Hret)
    as (name & n & q & -> & _ & _ & _ & ->).
  exists name. split; [reflexivity|]. simpl. split.
  - intros k Hk. now apply dict_get_set_other.
  - apply dict_keys_set.
Qed.

Lemma add_item_other_items_witness :
  let r := add_item (Some (PStr "kiwi")) (Some (PInt 1)) None pear_and_apples in
  dict_get (stock_data (snd r)) "pear" = Some one /\
  dict_keys (stock_data (snd r)) = ["pear"; "apple"; "kiwi"].
Proof.
  cbv zeta.
  destruct (add_item_other_items (PStr "kiwi") (PInt 1) None pear_and_apples)
    as (name & Hname & Hother & Hkeys); [exact (fun H => H)|].
  injection Hname as <-. split.
  - rewrite Hother; [reflexivity | discriminate].
  - rewrite Hkeys. reflexivity.
Defined.

(** X2.  A call of [add_item] that returns writes one and the same
    message, which names the quantity and the item as they were passed,
    to the logger and, when a list [logs] was passed, to the end of that
    list; it reads the clock once and writes no file. *)
Theorem add_item_logs_once (item qty : pyval) (logs : option (list msg))
    (w : world) :
  let r := add_item (Some item) (Some qty) logs w in
  ~ raised (fst r) ->
  exists m,
    In (Fmt qty) m /\ In (Fmt item) m /\
    log_out (snd r) = log_out w ++ [m] /\
    fst r = Ok (option_map (fun l => l ++ [m]) logs) /\
    files (snd r) = files w /\ clock (snd r) = S (clock w).
Proof.
  cbv zeta. unfold add_item. simpl default_arg. intros Hret.
  destruct (add_item_returns _ _ _ _ Hret)
    as (name & n & q & -> & _ & _ & _ & ->).
  exists [Stamp (clock w); Lit ": Added "; Fmt qty; Lit " of ";
          Fmt (PStr name)].
  simpl. repeat split; auto 10.
Qed.

Lemma add_item_logs_once_witness :
  let r := add_item (Some (PStr "kiwi")) (Some (PInt 1))
             (Some [[Lit "start"]]) pear_and_apples in
  exists m,
    log_out (snd r) = [m] /\ fst r = Ok (Some [[Lit "start"]; m]).
Proof.
  cbv zeta.
  destruct (add_item_logs_once (PStr "kiwi") (PInt 1) (Some [[Lit "start"]])
              pear_and_apples)
    as (m & _ & _ & Hlog & Hret & _); [exact (fun H => H)|].
  exists m. split; [exact Hlog | exact Hret].
Defined.

(** X3.  A call [remove_item(item, qty)] that returns touches no other
    item: every other key keeps its quantity, and the keys afterwards are
    the keys before in the same order, with or without [item]. *)
Theorem remove_item_other_items (item qty : pyval) (w : world) :
  let r := remove_item item qty w in
  let d := stock_data w in
  ~ raised (fst r) ->
  exists name,
    item = PStr name /\
    (forall k, k <> name -> dict_get (stock_data (snd r)) k = dict_get d k) /\
    (dict_keys (stock_data (snd r)) = dict_keys d \/
     dict_keys (stock_data (snd r)) =
       filter (fun k => negb (String.eqb k name)) (dict_keys d)).
Proof.
  cbv zeta. intros Hret.
  destruct (remove_item_returns _ _ _ Hret)
    as (name & n & have & q & -> & _ & _ & Hhave & _ & ->).
  exists name. split; [reflexivity|]. unfold removed.
  destruct (num_eqb (NFloat (fsub have q)) (NInt 0)); simpl; split.
  - intros k Hk. now apply dict_get_del_other.
  - right. apply dict_keys_del_filter.
  - intros k Hk. now apply dict_get_set_other.
  - left. rewrite dict_keys_set. unfold dict_mem. now rewrite Hhave.
Qed.

Lemma remove_item_other_items_witness :
  let r := remove_item (PStr "pear") (PInt 1) pear_apples_fig in
  dict_get (stock_data (snd r)) "fig" = Some one /\
  dict_keys (stock_data (snd r)) = ["apple"; "fig"].
Proof.
  cbv zeta.
  destruct (remove_item_other_items (PStr "pear") (PInt 1) pear_apples_fig)
    as (name & Hname & Hother & Hkeys); [exact (fun H => H)|].
  injection Hname as <-. split.
  - rewrite Hother; [reflexivity | discriminate].
  - destruct Hkeys as [H|H]; [discriminate H | exact H].
Defined.

(** X4.  After a call [remove_item(item, qty)] that returns, the quantity
    stored under [item], if one is left, is neither zero nor negative. *)
Theorem remove_item_leaves_no_zero (item qty : pyval) (w : world)
    (name : string) (v : float) :
  let r := remove_item item qty w in
  ~ raised (fst r) -> item = PStr name ->
  dict_get (stock_data (snd r)) name = Some v ->
  ~ negative (NFloat v) /\ ~ is_zero (NFloat v).
Proof.
  cbv zeta. intros Hret -> Hv.
  destruct (remove_item_returns _ _ _ Hret)
    as (name' & n & have & q & [= <-] & _ & _ & _ & Hlt & Heq).
  rewrite Heq in Hv. unfold removed in Hv.
  destruct (num_eqb (NFloat (fsub have q)) (NInt 0)) eqn:Hz; simpl in Hv.
  - now rewrite dict_get_del_same in Hv.
  - rewrite dict_get_set_same in Hv. injection Hv as <-. split.
    + now apply num_ltb_zero_false.
    + rewrite <- num_eqb_zero. congruence.
Qed.

Lemma remove_item_leaves_no_zero_witness :
  let r := remove_item (PStr "apple") (PInt 6) pear_and_apples in
  ~ negative (NFloat one) /\ ~ is_zero (NFloat one).
Proof.
  cbv zeta.
  apply (remove_item_leaves_no_zero (PStr "apple") (PInt 6) pear_and_apples
           "apple" one); [exact (fun H => H) | reflexivity | reflexivity].
Defined.

Lemma load_items_app (pre rest : list (pyval * pyval)) (w : world) :
  load_items (pre ++ rest) w =
  match load_items pre w with
  | (Ok _, w') => load_items rest w'
  | (Raise e, w') => (Raise e, w')
  end.
Proof.
  revert w. induction pre as [|[k v] pre IH]; intros w; simpl; [reflexivity|].
  destruct k as [| | | |name| |]; try reflexivity.
  destruct (as_num v) as [n|]; [|reflexivity].
  run. destruct (py_float n) as [x|e]; [|reflexivity].
  cbn. apply IH.
Qed.

Lemma load_items_loads_as (items : list (pyval * pyval)) (d : dict) :
  loads_as items d ->
  forall w,
    dict_wf d ->
    (forall k, In k (dict_keys d) -> ~ In k (dict_keys (stock_data w))) ->
    load_items items w =
    (Ok tt, mkWorld (stock_data w ++ d) (files w) (log_out w) (clock w)).
Proof.
  unfold dict_wf.
  induction 1 as [|[k v] [name x] items d (Hk & n & Hn & Hx) Hrest IH];
    intros w Hwf Hnew; simpl in *.
  - rewrite app_nil_r. now destruct w.
  - subst k. rewrite Hn. run. rewrite Hx. cbn.
    inversion Hwf as [|? ? Hname Hwf']; subst.
    rewrite dict_set_absent by (apply dict_get_None, Hnew; now left).
    rewrite IH; simpl; [now rewrite <- app_assoc | assumption |].
    intros k' Hin. unfold dict_keys. rewrite map_app, in_app_iff. simpl.
    intros [H|[Hk'|[]]]; [|subst k'; contradiction].
    revert H. apply Hnew. now right.
Qed.

Lemma load_items_bad_entry (k v : pyval) rest (w : world) :
  bad_entry k v ->
  load_items ((k, v) :: rest) w =
  (Raise (ValueError
            [Lit "inventory must map strings to numeric quantities"]), w).
Proof.
  unfold bad_entry. simpl.
  destruct k as [| | | |name| |]; try reflexivity.
  destruct (as_num v); [tauto | reflexivity].
Qed.

Lemma load_items_stock_only (items : list (pyval * pyval)) (w1 w2 : world) :
  stock_data w1 = stock_data w2 ->
  fst (load_items items w1) = fst (load_items items w2) /\
  stock_data (snd (load_items items w1)) =
  stock_data (snd (load_items items w2)).
Proof.
  revert w1 w2. induction items as [|[k v] items IH]; intros w1 w2 Hw; simpl;
    [auto|].
  destruct k as [| | | |name| |]; try (simpl; auto).
  destruct (as_num v) as [n|]; [|simpl; auto].
  run. destruct (py_float n) as [x|e]; [|simpl; auto].
  cbn. apply IH. simpl. now rewrite Hw.
Qed.

(** X5.  [load_data] on a file that holds a JSON object with string keys
    and numbers that have a float returns, and the mapping is then
    exactly the entries of the file, in the order of the file, each
    number made a float; one record with their count is logged, and no
    file is written. *)
Theorem load_data_reads_file (file : option string) (w : world)
    (ro : bool) (items : list (pyval * pyval)) (d : dict) :
  files w (path_of file) = File ro (Doc (PDict items)) ->
  loads_as items d -> dict_wf d ->
  load_data file w =
  (Ok tt,
   mkWorld d (files w)
           (log_out w ++ [[Lit "Loaded "; Count (List.length d);
                           Lit " items from "; Fmt (PStr (path_of file))]])
           (clock w)).
Proof.
  intros Hf Hitems Hwf. unfold load_data. rewrite load_data_eq, Hf.
  rewrite (load_items_loads_as items d Hitems); simpl; auto.
Qed.

Lemma load_data_reads_file_witness :
  let w := with_file [("apple", seven)]
             (PDict [(PStr "pear", PInt 1); (PStr "fig", PFloat seven)]) in
  stock_data (snd (load_data None w)) = [("pear", one); ("fig", seven)].
Proof.
  cbv zeta.
  rewrite (load_data_reads_file None _ false
             [(PStr "pear", PInt 1); (PStr "fig", PFloat seven)]
             [("pear", one); ("fig", seven)]).
  - reflexivity.
  - reflexivity.
  - repeat constructor; simpl; eauto.
  - unfold dict_wf. simpl. repeat constructor; simpl; intuition discriminate.
Defined.

(** X6.  Once the file holds a plain JSON object (string keys, each key
    once, scalar values, no int of more than 4300 digits), what
    [load_data] returns or raises and the mapping it leaves depend on
    the file alone: nothing of the mapping that was in memory survives
    the call, whether it returns or raises. *)
Theorem load_data_forgets_previous (file : option string) (w1 w2 : world)
    (ro1 ro2 : bool) (items : list (pyval * pyval)) :
  files w1 (path_of file) = File ro1 (Doc (PDict items)) ->
  files w2 (path_of file) = File ro2 (Doc (PDict items)) ->
  plain_object items ->
  fst (load_data file w1) = fst (load_data file w2) /\
  stock_data (snd (load_data file w1)) = stock_data (snd (load_data file w2)).
Proof.
  intros H1 H2 _. unfold load_data. rewrite !load_data_eq, H1, H2.
  pose proof (load_items_stock_only items
                (mkWorld [] (files w1) (log_out w1) (clock w1))
                (mkWorld [] (files w2) (log_out w2) (clock w2)) eq_refl)
    as [Hr Hs].
  destruct (load_items items (mkWorld [] (files w1) _ _)) as [[[]|e1] w1'],
           (load_items items (mkWorld [] (files w2) _ _)) as [[[]|e2] w2'];
    simpl in *; try discriminate; auto.
Qed.

Lemma load_data_forgets_previous_witness :
  let items := [(PStr "a", PInt 1); (PStr "b", PStr "x")] in
  plain_object items /\
  stock_data (snd (load_data None
                     (with_file [("apple", seven)] (PDict items)))) =
  stock_data (snd (load_data None
                     (with_file [("pear", one)] (PDict items)))).
Proof.
  cbv zeta.
  assert (Hplain : plain_object [(PStr "a", PInt 1); (PStr "b", PStr "x")]).
  { split.
    - repeat constructor; simpl; intuition discriminate.
    - repeat constructor; simpl; eauto. }
  split; [exact Hplain|].
  exact (proj2 (load_data_forgets_previous None
                  (with_file [("apple", seven)] _) (with_file [("pear", one)] _)
                  false false _ eq_refl eq_refl Hplain)).
Defined.

(** X7.  [load_data] raises [OSError] when the file is missing or cannot
    be opened, [JSONDecodeError] when it is not JSON and [ValueError]
    when the document is not an object; in each of these cases nothing
    at all has changed. *)
Theorem load_data_cannot_start (file : option string) (w : world) :
  let r := load_data file w in
  let node := files w (path_of file) in
  (node = Absent \/ node = Unusable -> r = (Raise OSError, w)) /\
  (forall ro, node = File ro NotJson -> r = (Raise JSONDecodeError, w)) /\
  (forall ro v,
      node = File ro (Doc v) -> (forall items, v <> PDict items) ->
      is_ValueError (fst r) /\ snd r = w).
Proof.
  cbv zeta. unfold load_data. rewrite load_data_eq. split; [|split].
  - intros [-> | ->]; reflexivity.
  - intros ro ->. reflexivity.
  - intros ro v -> Hv. destruct v; simpl; auto. now destruct (Hv items).
Qed.

Lemma load_data_cannot_start_witness :
  load_data None pear_and_apples = (Raise OSError, pear_and_apples) /\
  snd (load_data None (with_file [("apple", seven)] (PList []))) =
  with_file [("apple", seven)] (PList []).
Proof.
  split.
  - apply (proj1 (load_data_cannot_start None pear_and_apples)).
    left. reflexivity.
  - apply (proj2 (proj2 (load_data_cannot_start None
                           (with_file [("apple", seven)] (PList []))))
             false (PList []) eq_refl).
    discriminate.
Defined.

(** X8.  On a file that holds a plain JSON object (string keys, each key
    once, scalar values, no int of more than 4300 digits) whose entries
    are good up to one whose value is not a number, [load_data] raises
    [ValueError] and the mapping holds the entries before that one, and
    only them; nothing is logged.  When the value is instead an int with
    no float, the same happens with [OverflowError]. *)
Theorem load_data_stops_at_bad_entry (file : option string) (w : world)
    (ro : bool) (pre rest : list (pyval * pyval)) (k v : pyval) (d : dict) :
  let r := load_data file w in
  files w (path_of file) = File ro (Doc (PDict (pre ++ (k, v) :: rest))) ->
  plain_object (pre ++ (k, v) :: rest) ->
  loads_as pre d -> dict_wf d ->
  (bad_entry k v ->
   is_ValueError (fst r) /\
   snd r = mkWorld d (files w) (log_out w) (clock w)) /\
  (forall name n,
      k = PStr name -> as_num v = Some n -> py_float n = Raise OverflowError ->
      r = (Raise OverflowError, mkWorld d (files w) (log_out w) (clock w))).
Proof.
  cbv zeta. intros Hf _ Hpre Hwf. unfold load_data.
  rewrite load_data_eq, Hf, load_items_app.
  rewrite (load_items_loads_as pre d Hpre); simpl; auto.
  split.
  - intros Hbad. pose proof (load_items_bad_entry k v rest) as H.
    simpl in H. rewrite H by assumption. simpl. auto.
  - intros name n -> Hn Hx. rewrite Hn. run. rewrite Hx. reflexivity.
Qed.

Lemma load_data_stops_at_bad_entry_witness :
  let r := load_data None apples_and_bad_file in
  plain_object [(PStr "a", PInt 1); (PStr "b", PStr "x")] /\
  is_ValueError (fst r) /\
  snd r = mkWorld [("a", one)] (files apples_and_bad_file) [] 0.
Proof.
  cbv zeta.
  assert (Hplain : plain_object [(PStr "a", PInt 1); (PStr "b", PStr "x")]).
  { split.
    - repeat constructor; simpl; intuition discriminate.
    - repeat constructor; simpl; eauto. }
  split; [exact Hplain|].
  apply (proj1 (load_data_stops_at_bad_entry None apples_and_bad_file false
                  [(PStr "a", PInt 1)] [] (PStr "b") (PStr "x") [("a", one)]
                  eq_refl Hplain
                  ltac:(repeat constructor; simpl; eauto)
                  ltac:(unfold dict_wf; simpl; repeat constructor;
                        simpl; tauto))).
  exact I.
Defined.

(** X9.  [save_data] never changes the mapping or any file but its own.
    When it returns, its file holds the mapping as a JSON object, entry
    by entry in the mapping's order, and one record is logged; when its
    file cannot be opened for writing, [OSError] is raised and nothing
    at all has changed. *)
Theorem save_data_effect (file : option string) (w : world) :
  let r := save_data file w in
  let path := path_of file in
  stock_data (snd r) = stock_data w /\
  (forall p, p <> path -> files (snd r) p = files w p) /\
  (fst r = Ok tt ->
   files (snd r) path = File false (Doc (to_json (stock_data w))) /\
   log_out (snd r) =
     log_out w ++ [[Lit "Saved "; Count (List.length (stock_data w));
                    Lit " items to "; Fmt (PStr path)]]) /\
  (~ writable (files w path) -> r = (Raise OSError, w)).
Proof.
  cbv zeta. unfold save_data. rewrite save_data_eq.
  destruct (files w (path_of file)) as [| |[] c] eqn:Hf; simpl;
    unfold fs_write; rewrite ?String.eqb_refl;
    repeat split; try tauto; try discriminate;
    intros p Hp; destruct (String.eqb_spec p (path_of file)); congruence.
Qed.

Lemma save_data_effect_witness :
  fst (save_data None pear_and_apples) = Ok tt /\
  files (snd (save_data None pear_and_apples)) "inventory.json" =
    File false (Doc (PDict [(PStr "pear", PFloat one);
                            (PStr "apple", PFloat seven)])) /\
  files (snd (save_data None pear_and_apples)) "other.json" = Absent /\
  save_data None (mkWorld [("pear", one)] (fun _ => Unusable) [] 0) =
    (Raise OSError, mkWorld [("pear", one)] (fun _ => Unusable) [] 0).
Proof.
  split; [reflexivity|]. split; [|split].
  - apply (proj1 (proj1 (proj2 (proj2 (save_data_effect None pear_and_apples)))
                    eq_refl)).
  - apply (proj1 (proj2 (save_data_effect None pear_and_apples))).
    discriminate.
  - apply (proj2 (proj2 (proj2 (save_data_effect None
                                  (mkWorld [("pear", one)] (fun _ => Unusable)
                                           [] 0))))).
    exact (fun H => H).
Defined.

Lemma float_lt_int_mono (f : float) (z1 z2 : Z) :
  z1 <= z2 ->
  num_ltb (NFloat f) (NInt z1) = true -> num_ltb (NFloat f) (NInt z2) = true.
Proof.
  intros Hz.
  assert (Hc : forall a b1 b2,
             b1 <= b2 ->
             match a ?= b1 with Lt => true | _ => false end = true ->
             match a ?= b2 with Lt => true | _ => false end = true).
  { intros a b1 b2 Hb H. destruct (a ?= b1) eqn:E; try discriminate.
    change (a < b1) in E.
    assert (E2 : a < b2) by lia.
    unfold Z.lt in E2. now rewrite E2. }
  cbv beta iota delta [num_ltb num_compare float_cmp_int].
  destruct f as [s|[]| |s m e]; try congruence.
  - now apply Hc.
  - destruct e as [|p|p]; try (now apply Hc).
    apply Hc.
    assert (Hp : 0 < 2 ^ Zpos p) by (apply Z.pow_pos_nonneg; lia). nia.
Qed.

(** X10.  Raising an integer threshold never drops an item: for integers
    [0 <= t1 <= t2], every item [check_low_items(t1)] lists is listed by
    [check_low_items(t2)]. *)
Theorem check_low_items_monotone (t1 t2 : Z) (w : world)
    (l1 l2 : list string) :
  0 <= t1 <= t2 ->
  fst (check_low_items (Some (PInt t1)) w) = Ok l1 ->
  fst (check_low_items (Some (PInt t2)) w) = Ok l2 ->
  incl l1 l2.
Proof.
  intros [H1 H12]. unfold check_low_items. simpl default_arg.
  rewrite !check_low_items_eq. simpl.
  assert (Hn1 : num_ltb (NInt t1) (NInt 0) = false)
    by (apply num_ltb_zero_false; simpl; lia).
  assert (Hn2 : num_ltb (NInt t2) (NInt 0) = false)
    by (apply num_ltb_zero_false; simpl; lia).
  rewrite Hn1, Hn2. intros [= <-] [= <-] name Hin.
  apply low_names_In in Hin as (qty & Hin & Hlt).
  apply low_names_In. exists qty. split; [assumption|].
  now apply (float_lt_int_mono qty t1 t2).
Qed.

Lemma check_low_items_monotone_witness :
  incl ["pear"; "fig"] ["pear"; "apple"; "fig"].
Proof.
  apply (check_low_items_monotone 5 8 pear_apples_fig);
    [lia | reflexivity | reflexivity].
Defined.

(** X11.  Adding a quantity of an item that is not stocked and removing
    the same quantity again puts the mapping back as it was, when the
    quantity is a positive finite number: both calls return and the item
    is gone. *)
Theorem add_then_remove_restores (name : string) (qty : pyval) (n : num)
    (m : positive) (e : Z) logs (w : world) :
  let w1 := snd (add_item (Some (PStr name)) (Some qty) logs w) in
  ~ blank name -> as_num qty = Some n ->
  py_float n = Ok (S754_finite false m e) ->
  dict_get (stock_data w) name = None ->
  ~ raised (fst (add_item (Some (PStr name)) (Some qty) logs w)) /\
  fst (remove_item (PStr name) qty w1) = Ok tt /\
  stock_data (snd (remove_item (PStr name) qty w1)) = stock_data w.
Proof.
  cbv zeta. intros Hname Hn Hq Habs.
  assert (Hsp : all_space name = false)
    by (unfold blank in Hname; now destruct (all_space name)).
  assert (Hpos : ~ negative n /\ ~ is_zero n).
  { destruct n as [z|f]; simpl in Hq.
    - unfold float_of_int in Hq. destruct z as [|p|p]; simpl in *;
        try discriminate; [split; lia|].
      pose proof (binary_round_sign true p 0) as Hs.
      destruct (binary_round prec emax true p 0); try discriminate.
      injection Hq as -> _ _. discriminate.
    - injection Hq as ->. simpl. tauto. }
  unfold add_item. simpl default_arg.
  rewrite (add_item_accepts name qty n) by tauto. rewrite Hq.
  split; [simpl; tauto|]. cbn [snd].
  rewrite (remove_item_accepts name qty n) by tauto.
  unfold added, quantity. cbn [stock_data]. rewrite Habs, Hq.
  rewrite dict_get_set_same.
  assert (Hsum : fadd fzero (S754_finite false m e) = S754_finite false m e)
    by reflexivity.
  assert (Hdiff : fsub (S754_finite false m e) (S754_finite false m e)
                  = S754_zero false).
  { unfold fsub, SFsub. cbn [cond_Zopp]. now rewrite Z.sub_diag. }
  rewrite Hsum, Hdiff. cbn. split; [reflexivity|].
  rewrite dict_set_absent by assumption. now apply dict_del_app_last.
Qed.

Lemma add_then_remove_restores_witness :
  let w1 := snd (add_item (Some (PStr "kiwi")) (Some (PInt 7)) None
                   pear_and_apples) in
  stock_data (snd (remove_item (PStr "kiwi") (PInt 7) w1)) =
  stock_data pear_and_apples.
Proof.
  cbv zeta.
  apply (add_then_remove_restores "kiwi" (PInt 7) (NInt 7)
           7881299347898368 (-50) None pear_and_apples);
    [discriminate | reflexivity | reflexivity | reflexivity].
Defined.

(** X12.  [add_item], [remove_item] and [load_data] write no file, and
    the logger's output only grows: a call that returns appends exactly
    one record, a call that raises appends none. *)
Theorem mutators_log_and_files (o : op) (w : world) :
  files (exec o w) = files w /\
  (raised (outcome o w) -> log_out (exec o w) = log_out w) /\
  (~ raised (outcome o w) ->
   exists m, log_out (exec o w) = log_out w ++ [m]).
Proof.
  destruct o as [item qty logs|item qty|file]; simpl.
  - unfold add_item.
    set (i := default_arg _ item). set (q := default_arg _ qty).
    destruct (fst (add_item_body i q logs w)) as [l|e] eqn:Hr.
    + assert (Hret : ~ raised (fst (add_item_body i q logs w)))
        by (rewrite Hr; exact (fun H => H)).
      destruct (add_item_returns _ _ _ _ Hret)
        as (name & n & x & _ & _ & _ & _ & ->).
      simpl. split; [reflexivity|]. split; [tauto|]. eauto.
    + rewrite add_item_raise_frame by (rewrite Hr; exact I).
      simpl. split; [reflexivity|]. split; [reflexivity | tauto].
  - destruct (fst (remove_item item qty w)) as [[]|e] eqn:Hr.
    + assert (Hret : ~ raised (fst (remove_item item qty w)))
        by (rewrite Hr; exact (fun H => H)).
      destruct (remove_item_returns _ _ _ Hret)
        as (name & n & have & x & _ & _ & _ & _ & _ & ->).
      unfold removed.
      destruct (num_eqb (NFloat (fsub have x)) (NInt 0)); simpl;
        (split; [reflexivity|]; split; [tauto|]; eauto).
    + rewrite remove_item_raise_frame by (rewrite Hr; exact I).
      simpl. split; [reflexivity|]. split; [reflexivity | tauto].
  - unfold load_data. rewrite load_data_eq.
    destruct (files w (path_of file)) as [| |ro [|[| | | | | |items]]];
      try (simpl; split; [reflexivity|]; split; [reflexivity | tauto]).
    pose proof (load_items_frame items
                  (mkWorld [] (files w) (log_out w) (clock w))) as H.
    cbv zeta in H. simpl in H. destruct H as (Hf & Hl & _).
    destruct (load_items items _) as [[[]|e] w']; simpl in *.
    + split; [assumption|]. split; [tauto|]. rewrite Hl. eauto.
    + split; [assumption|]. split; [intros _; assumption | tauto].
Qed.

Lemma mutators_log_and_files_witness :
  log_out (exec (OpRemove (PStr "kiwi") (PInt 1)) pear_and_apples) = [] /\
  exists m,
    log_out (exec (OpRemove (PStr "pear") (PInt 1)) pear_and_apples) = [m].
Proof.
  split.
  - apply (proj1 (proj2 (mutators_log_and_files
                           (OpRemove (PStr "kiwi") (PInt 1)) pear_and_apples))).
    exact I.
  - apply (proj2 (proj2 (mutators_log_and_files
                           (OpRemove (PStr "pear") (PInt 1)) pear_and_apples))).
    exact (fun H => H).
Defined.

Lemma print_items_eq (d : dict) (s : world * console) :
  print_items d s =
  (Ok tt,
   (fst s,
    snd s ++ map (fun kv => [Fmt (PStr (fst kv)); Lit " -> ";
                             Fmt (PFloat (snd kv))]) d)).
Proof.
  revert s. induction d as [|[name qty] d IH]; intros s; simpl.
  - rewrite app_nil_r. now destruct s.
  - unfold io_bind, print. rewrite IH. simpl. now rewrite <- app_assoc.
Qed.

Lemma print_data_eq (w : world) (out : console) :
  print_data (w, out) =
  (Ok tt,
   (w, out ++ [Lit "Items Report"]
            :: map (fun kv => [Fmt (PStr (fst kv)); Lit " -> ";
                               Fmt (PFloat (snd kv))]) (stock_data w))).
Proof.
  unfold print_data, io_bind, print, call, get_stock. simpl.
  rewrite print_items_eq. simpl. now rewrite <- app_assoc.
Qed.

(** X13.  [print_data] never raises and changes nothing in the ledger.
    It prints the header [Items Report], also for an empty mapping, and
    then one line per item, in the order of the mapping: one line more
    than there are items. *)
Theorem print_data_report (w : world) (out : console) :
  let r := print_data (w, out) in
  fst r = Ok tt /\ fst (snd r) = w /\
  (exists lines,
      snd (snd r) = out ++ [Lit "Items Report"] :: lines /\
      List.length lines = List.length (stock_data w) /\
      forall i name qty,
        nth_error (stock_data w) i = Some (name, qty) ->
        nth_error lines i =
          Some [Fmt (PStr name); Lit " -> "; Fmt (PFloat qty)]).
Proof.
  cbv zeta. rewrite print_data_eq. simpl. repeat split.
  eexists. split; [reflexivity|]. split; [apply length_map|].
  intros i name qty Hi. rewrite nth_error_map, Hi. reflexivity.
Qed.

Lemma print_data_report_witness :
  exists lines,
    snd (snd (print_data (pear_and_apples, []))) =
      [] ++ [Lit "Items Report"] :: lines /\
    nth_error lines 1 = Some [Fmt (PStr "apple"); Lit " -> ";
                              Fmt (PFloat seven)].
Proof.
  destruct (print_data_report pear_and_apples [])
    as (_ & _ & lines & Hout & _ & Hline).
  exists lines. split; [exact Hout|].
  apply (Hline 1%nat "apple" seven). reflexivity.
Defined.

Lemma call_bind {A B} (m : M A) (k : A -> IO B) (w : world) (out : console) :
  io_bind (call m) k (w, out) =
  match m w with
  | (Ok a, w') => k a (w', out)
  | (Raise e, w') => (Raise e, (w', out))
  end.
Proof. unfold io_bind, call. simpl. now destruct (m w) as [[a|e] w']. Qed.

Lemma dict_set_app_last (d : dict) (k : string) (v v' : float) :
  dict_get d k = None -> dict_set (d ++ [(k, v)]) k v' = d ++ [(k, v')].
Proof.
  induction d as [|[k0 v0] d IH]; simpl.
  - now rewrite String.eqb_refl.
  - destruct (String.eqb k0 k); [discriminate|].
    intros H. now rewrite IH.
Qed.

Lemma dict_get_app_last (d : dict) (k : string) (v : float) :
  dict_get d k = None -> dict_get (d ++ [(k, v)]) k = Some v.
Proof.
  intros H. rewrite <- (dict_set_absent d k v H). apply dict_get_set_same.
Qed.

(** The first two calls of [main], on a ledger without apples. *)
Lemma main_add_remove (w : world) :
  dict_get (stock_data w) "apple" = None ->
  exists lg,
    add_item (Some (PStr "apple")) (Some (PInt 10)) (Some []) w
      = (Ok (Some lg),
         added w (PStr "apple") (PInt 10) "apple"
               (S754_finite false 5629499534213120 (-49))) /\
    forall w1,
      stock_data w1 =
        stock_data w ++ [("apple", S754_finite false 5629499534213120 (-49))] ->
      remove_item (PStr "apple") (PInt 3) w1 =
      (Ok tt,
       mkWorld (stock_data w ++ [("apple", seven)]) (files w1)
               (log_out w1 ++ [[Stamp (clock w1); Lit ": Removed ";
                                Fmt (PInt 3); Lit " of "; Fmt (PStr "apple");
                                Lit "; new qty "; Fmt (PFloat seven)]])
               (S (clock w1))).
Proof.
  intros Habs. eexists. split.
  - unfold add_item. simpl default_arg.
    rewrite (add_item_accepts "apple" (PInt 10) (NInt 10));
      [reflexivity | reflexivity | reflexivity | simpl; lia].
  - intros w1 Hw1.
    rewrite (remove_item_accepts "apple" (PInt 3) (NInt 3));
      [|reflexivity | reflexivity | simpl; lia].
    rewrite Hw1, (dict_get_app_last _ _ _ Habs).
    change (py_float (NInt 3)) with (Ok (S754_finite false 6755399441055744 (-51))).
    cbv iota.
    replace (fsub (S754_finite false 5629499534213120 (-49))
                  (S754_finite false 6755399441055744 (-51)))
      with seven by (vm_compute; reflexivity).
    change (num_ltb (NFloat seven) (NInt 0)) with false. cbv iota.
    unfold removed.
    change (num_eqb (NFloat seven) (NInt 0)) with false. cbv iota.
    rewrite Hw1, (dict_set_app_last _ _ _ _ Habs). reflexivity.
Qed.

Lemma io_bind_assoc {A B C} (m : IO A) (k : A -> IO B) (k' : B -> IO C)
    (s : world * console) :
  io_bind (io_bind m k) k' s = io_bind m (fun a => io_bind (k a) k') s.
Proof. unfold io_bind. now destruct (m s) as [[a|e] s']. Qed.

Lemma print_bind {B} (line : msg) (k : unit -> IO B) (w : world)
    (out : console) :
  io_bind (print line) k (w, out) = k tt (w, out ++ [line]).
Proof. reflexivity. Qed.

Lemma dict_wf_app_last (d : dict) (k : string) (v : float) :
  dict_wf d -> dict_get d k = None -> dict_wf (d ++ [(k, v)]).
Proof.
  intros Hwf Habs. rewrite <- (dict_set_absent d k v Habs).
  now apply dict_set_wf.
Qed.

(** What [main] has done when it reaches [save_data]. *)
Lemma main_until_save (w : world) (out : console) :
  dict_get (stock_data w) "apple" = None ->
  exists w2,
    stock_data w2 = stock_data w ++ [("apple", seven)] /\
    files w2 = files w /\
    main (w, out) =
    (call (save_data None) ;;~ call (load_data None) ;;~ print_data)
      (w2,
       out ++ [[Lit "Apple stock: "; Fmt (PFloat seven)];
               [Lit "Low items: ";
                Fmt (PList (map PStr (low_names (stock_data w2) (NInt 5))))]]).
Proof.
  intros Habs. destruct (main_add_remove w Habs) as (lg & Hadd & Hrem).
  exists (mkWorld (stock_data w ++ [("apple", seven)]) (files w)
            ((log_out w ++ [[Stamp (clock w); Lit ": Added "; Fmt (PInt 10);
                             Lit " of "; Fmt (PStr "apple")]])
             ++ [[Stamp (S (clock w)); Lit ": Removed "; Fmt (PInt 3);
                  Lit " of "; Fmt (PStr "apple"); Lit "; new qty ";
                  Fmt (PFloat seven)]])
            (S (S (clock w)))).
  split; [|split]; cycle 2.
  - unfold main. rewrite call_bind, Hadd. rewrite call_bind, Hrem.
    2:{ unfold added, quantity. cbn [stock_data]. rewrite Habs.
        now apply dict_set_absent. }
    rewrite call_bind. unfold get_stock. cbn [stock_data].
    unfold dict_mem. rewrite (dict_get_app_last _ _ _ Habs). cbv iota.
    rewrite io_bind_assoc, call_bind, get_qty_eq. cbn [stock_data].
    rewrite (dict_get_app_last _ _ _ Habs). cbv beta iota.
    rewrite print_bind.
    rewrite call_bind. unfold check_low_items. rewrite check_low_items_eq.
    cbn [default_arg as_num stock_data].
    change (num_ltb (NInt 5) (NInt 0)) with false. cbv iota.
    rewrite print_bind. rewrite <- app_assoc. reflexivity.
  - reflexivity.
  - reflexivity.
Qed.

(** [save_data()] and then [load_data()], as [main] calls them. *)
Lemma save_then_load_default (w w1 : world) :
  dict_wf (stock_data w) -> save_data None w = (Ok tt, w1) ->
  exists w2,
    load_data None w1 = (Ok tt, w2) /\
    stock_data w2 = stock_data w /\
    files w2 "inventory.json" = File false (Doc (to_json (stock_data w))).
Proof.
  intros Hwf. unfold save_data, load_data. rewrite save_data_eq.
  cbn [path_of].
  assert (Hload : forall fs lg ck,
             load_items (map (fun kv => (PStr (fst kv), PFloat (snd kv)))
                             (stock_data w))
                        (mkWorld [] fs lg ck)
             = (Ok tt, mkWorld (stock_data w) fs lg ck)).
  { intros fs lg ck. rewrite load_items_to_json; simpl; auto. }
  destruct (files w "inventory.json") as [| |[] c]; try discriminate;
    intros [= <-]; eexists;
    rewrite load_data_eq; cbn [files]; unfold fs_write at 1;
    rewrite String.eqb_refl; unfold to_json at 1; rewrite Hload;
    (split; [reflexivity|]); cbn [stock_data files]; unfold fs_write;
    rewrite String.eqb_refl; split; reflexivity.
Qed.

(** X14.  When [main] returns on a ledger without apples, the mapping
    holds what it held before and, last, 7.0 apples; the file
    [inventory.json] holds that mapping; and four parts have been
    printed: the apple stock, the low items (those below 5), the header
    and one line per item. *)
Theorem main_runs (w : world) (out : console) :
  let r := main (w, out) in
  let d := stock_data w ++ [("apple", seven)] in
  dict_wf (stock_data w) ->
  dict_get (stock_data w) "apple" = None ->
  fst r = Ok tt ->
  stock_data (fst (snd r)) = d /\
  files (fst (snd r)) "inventory.json" = File false (Doc (to_json d)) /\
  snd (snd r) =
    out ++ [[Lit "Apple stock: "; Fmt (PFloat seven)];
            [Lit "Low items: "; Fmt (PList (map PStr (low_names d (NInt 5))))];
            [Lit "Items Report"]]
        ++ map (fun kv => [Fmt (PStr (fst kv)); Lit " -> ";
                           Fmt (PFloat (snd kv))]) d.
Proof.
  cbv zeta. intros Hwf Habs.
  destruct (main_until_save w out Habs) as (w2 & Hs & Hf & ->).
  assert (Hwf2 : dict_wf (stock_data w2))
    by (rewrite Hs; now apply dict_wf_app_last).
  rewrite call_bind.
  destruct (save_data None w2) as [[[]|e] w3] eqn:Hsave;
    [|intros Hret; discriminate Hret].
  destruct (save_then_load_default w2 w3 Hwf2 Hsave)
    as (w4 & Hload & Hstock & Hfile).
  rewrite call_bind, Hload, print_data_eq.
  cbn [fst snd]. rewrite Hstock, Hfile, Hs, <- app_assoc.
  intros _. repeat split; reflexivity.
Qed.

Lemma main_runs_witness :
  let r := main (fresh, []) in
  fst r = Ok tt /\ stock_data (fst (snd r)) = [("apple", seven)] /\
  snd (snd r) =
    [[Lit "Apple stock: "; Fmt (PFloat seven)];
     [Lit "Low items: "; Fmt (PList [])];
     [Lit "Items Report"];
     [Fmt (PStr "apple"); Lit " -> "; Fmt (PFloat seven)]].
Proof.
  cbv zeta.
  destruct (main_runs fresh [] (NoDup_nil _) eq_refl eq_refl)
    as (Hstock & _ & Hout).
  split; [reflexivity|]. split; [exact Hstock | exact Hout].
Defined.

(** X15.  On a ledger without apples whose file [inventory.json] cannot
    be written, [main] raises [OSError] out of [save_data].  By then the
    mapping holds 7.0 apples at its end and the first two lines have been
    printed; the report has not. *)
Theorem main_cannot_save (w : world) (out : console) :
  let r := main (w, out) in
  let d := stock_data w ++ [("apple", seven)] in
  dict_get (stock_data w) "apple" = None ->
  ~ writable (files w "inventory.json") ->
  fst r = Raise OSError /\
  stock_data (fst (snd r)) = d /\
  files (fst (snd r)) = files w /\
  snd (snd r) =
    out ++ [[Lit "Apple stock: "; Fmt (PFloat seven)];
            [Lit "Low items: "; Fmt (PList (map PStr (low_names d (NInt 5))))]].
Proof.
  cbv zeta. intros Habs Hw.
  destruct (main_until_save w out Habs) as (w2 & Hs & Hf & ->).
  rewrite call_bind. unfold save_data. rewrite save_data_eq, Hf.
  cbn [path_of].
  assert (Hsaved :
            ~ match files w "inventory.json" with
              | Absent | File false _ => True
              | _ => False
              end) by exact Hw.
  destruct (files w "inventory.json") as [| |[] c]; try tauto;
    cbn [fst snd]; rewrite Hs; auto.
Qed.

Lemma main_cannot_save_witness :
  let w := mkWorld [] (fun _ => Unusable) [] 0 in
  fst (main (w, [])) = Raise OSError /\
  stock_data (fst (snd (main (w, [])))) = [("apple", seven)].
Proof.
  cbv zeta.
  destruct (main_cannot_save (mkWorld [] (fun _ => Unusable) [] 0) []
              eq_refl (fun H => H))
    as (Hret & Hstock & _).
  split; [exact Hret | exact Hstock].
Defined.
